(** * chain.py: the console question-to-SQL pipeline, embedded and verified

    The script reads a question, screens it ([refine_prompt]), asks a
    LangChain chain for SQL, runs it, asks whether a chart is wanted
    ([check_for_visualization_request]), possibly generates and executes
    plotting code ([ask_llm_to_generate_code], [execute_generated_code]) and
    finally asks the model for an answer.

    Python [str] values are modelled as lists of characters whose code points
    are below 256 (type [ascii]); on that range [str.lower], [str.strip],
    [in], [str.find], slicing, [str.replace] and [str.split] are written out
    below the way CPython computes them.  The console, the model, the SQL
    chain, the database and [exec] are external: they are oracles that see
    the history of events so far, and every theorem quantifies over them.
    A call to the console or to a library returns, fails with an error or
    is interrupted; the generated program run by [exec] may raise anything.
    The loop [while True] is run for a given number of turns. *)

From Equations Require Import Equations.
From Stdlib Require Import Ascii String List ZArith Lia Bool Arith.
Import ListNotations.

(** ** Python strings *)

Module PyStr.

Definition str := list ascii.

(** A literal of the source. *)
Definition py (s : string) : str := list_ascii_of_string s.

Definition code (c : ascii) : nat := nat_of_ascii c.

(** [str.isspace] on one character: TAB LF VT FF CR, FS GS RS US, SPACE,
    NEL (0x85) and NBSP (0xA0). *)
Definition isspace (c : ascii) : bool :=
  let n := code c in
  ((9 <=? n) && (n <=? 13)) || ((28 <=? n) && (n <=? 32))
  || (n =? 133) || (n =? 160).

(** [str.lower] on one character: A-Z, and the Latin-1 capitals 0xC0-0xDE
    without the multiplication sign 0xD7, move up by 32. *)
Definition lower_char (c : ascii) : ascii :=
  let n := code c in
  if ((65 <=? n) && (n <=? 90))
     || ((192 <=? n) && (n <=? 222) && negb (n =? 215))
  then ascii_of_nat (n + 32) else c.

Definition lower (s : str) : str := map lower_char s.

Fixpoint str_eqb (a b : str) : bool :=
  match a, b with
  | [], [] => true
  | x :: a', y :: b' => Ascii.eqb x y && str_eqb a' b'
  | _, _ => false
  end.

Fixpoint lstrip (s : str) : str :=
  match s with
  | [] => []
  | c :: s' => if isspace c then lstrip s' else s
  end.

Definition rstrip (s : str) : str := rev (lstrip (rev s)).

(** [s.strip()] *)
Definition strip (s : str) : str := lstrip (rstrip s).

(** [s.startswith(p)] *)
Fixpoint startswith (p s : str) : bool :=
  match p, s with
  | [], _ => true
  | _ :: _, [] => false
  | x :: p', y :: s' => Ascii.eqb x y && startswith p' s'
  end.

(** [sub in s] *)
Fixpoint contains (sub s : str) : bool :=
  startswith sub s ||
  match s with
  | [] => false
  | _ :: s' => contains sub s'
  end.

(** The scan behind [s.find(sub)]: the offset of the leftmost match. *)
Fixpoint find_nat (sub s : str) : option nat :=
  if startswith sub s then Some 0
  else match s with
       | [] => None
       | _ :: s' => option_map S (find_nat sub s')
       end.

(** [s.find(sub)]: the lowest index, or -1. *)
Definition find (sub s : str) : Z :=
  match find_nat sub s with
  | Some i => Z.of_nat i
  | None => (-1)%Z
  end.

(** [s[start:]]: a negative start counts from the end and is clamped at 0;
    a start past the end gives the empty string. *)
Definition slice_from (s : str) (start : Z) : str :=
  let len := Z.of_nat (length s) in
  let i := if (start <? 0)%Z then Z.max 0 (start + len) else Z.min start len in
  skipn (Z.to_nat i) s.

(** [s.replace(old, new)] for a non-empty [old]: matches are taken from the
    left and do not overlap. *)
Equations? replace_ne (o : ascii) (old new s : str) : str by wf (length s) lt :=
  replace_ne o old new [] := [];
  replace_ne o old new (c :: s') with startswith (o :: old) (c :: s') => {
    | true := new ++ replace_ne o old new (skipn (length old) s');
    | false := c :: replace_ne o old new s' }.
Proof.
  all: simpl; try lia.
  rewrite length_skipn. lia.
Qed.

(** [s.replace(old, new)]; an empty [old] matches before every character
    and at the end. *)
Definition replace (old new s : str) : str :=
  match old with
  | [] => new ++ flat_map (fun c => c :: new) s
  | o :: old' => replace_ne o old' new s
  end.

(** [s.split(sep)] for a non-empty [sep]; [cur] is the piece being read,
    reversed. *)
Equations? split_ne (o : ascii) (sep s cur : str) : list str by wf (length s) lt :=
  split_ne o sep [] cur := [rev cur];
  split_ne o sep (c :: s') cur with startswith (o :: sep) (c :: s') => {
    | true := rev cur :: split_ne o sep (skipn (length sep) s') [];
    | false := split_ne o sep s' (c :: cur) }.
Proof.
  all: simpl; try lia.
  rewrite length_skipn. lia.
Qed.

(** [s.split(sep)]; [None] is the [ValueError] of an empty separator. *)
Definition split (sep s : str) : option (list str) :=
  match sep with
  | [] => None
  | o :: sep' => Some (split_ne o sep' s [])
  end.

(** [l[-1]] of a non-empty list. *)
Definition last_piece (l : list str) : str := last l [].

End PyStr.

Import PyStr.

(** ** The outside world *)

Module World.

(** What Python can raise, by the classes the script's handlers tell apart:
    an instance of [Exception] with its message [str(e)], the
    [KeyboardInterrupt] of Ctrl-C, [SystemExit], the request of
    [sys.exit()] to leave the process, and an instance of any other class
    derived from [BaseException], [GeneratorExit] or a class that a program
    defines, with the name of its class.  No handler of the script catches
    the last two. *)
Inductive exn : Type :=
| Exception (msg : str)
| KeyboardInterrupt
| SystemExit
| OtherBaseException (cls : str).

Inductive result (A : Type) : Type :=
| Ok (a : A)
| Raise (e : exn).
Arguments Ok {A} a.
Arguments Raise {A} e.

(** How a call to the console or to a library can fail: with an error (an
    instance of [Exception]: [EOFError], an API error, a driver error) or
    because the user interrupts it while it blocks. *)
Inductive failure : Type :=
| Error (msg : str)
| Interrupt.

Definition raised (f : failure) : exn :=
  match f with
  | Error msg => Exception msg
  | Interrupt => KeyboardInterrupt
  end.

Inductive reply (A : Type) : Type :=
| Returns (a : A)
| Fails (f : failure).
Arguments Returns {A} a.
Arguments Fails {A} f.

Definition outcome {A} (r : reply A) : result A :=
  match r with
  | Returns a => Ok a
  | Fails f => Raise (raised f)
  end.

(** A [ChatGroq] client; the script builds one, for "llama3-8b-8192". *)
Record ChatGroq : Type := { model : str }.

(** What the script does to the outside, in the order it does it. *)
Inductive event : Type :=
| Print (text : str)
| Input (prompt : str)
| LlmInvoke (llm : ChatGroq) (content : str)
| ChainInvoke (question : str)
| DbRun (sql : str)
| Exec (source : str).

Definition history := list event.

(** The collaborators.  Each answers from the history so far and the
    argument of the call.  The console and the libraries return or fail;
    [exec] runs a program the model wrote, which may raise anything,
    [SystemExit] included, and is taken here not to rebind the names of
    the script; [Namespace.exec], below, lifts that restriction. *)
Record Env : Type := {
  console_input : history -> str -> reply str;
  llm_invoke : history -> ChatGroq -> str -> reply str;
  chain_invoke : history -> str -> reply str;
  db_run : history -> str -> reply str;
  exec_code : history -> str -> result unit
}.

(** The module-level names the loop assigns; [None] is an unbound name. *)
Record globals : Type := {
  question : option str;
  response : option str;
  sql_query : option str;
  result_ : option str;
  llm_choice : option str;
  llm : option ChatGroq;
  generated_code : option str;
  filled_prompt : option str;
  final_response : option str
}.

Definition unbound : globals :=
  {| question := None; response := None; sql_query := None; result_ := None;
     llm_choice := None; llm := None; generated_code := None;
     filled_prompt := None; final_response := None |}.

Record state : Type := { vars : globals; out : history }.

Definition M (A : Type) : Type := state -> result A * state.

Definition ret {A} (a : A) : M A := fun st => (Ok a, st).

Definition raise {A} (e : exn) : M A := fun st => (Raise e, st).

Definition bind {A B} (m : M A) (k : A -> M B) : M B :=
  fun st =>
    match m st with
    | (Ok a, st') => k a st'
    | (Raise e, st') => (Raise e, st')
    end.

(** [try: body / except Exception as e: handler(str(e))] *)
Definition try_except {A} (body : M A) (handler : str -> M A) : M A :=
  fun st =>
    match body st with
    | (Raise (Exception msg), st') => handler msg st'
    | r => r
    end.

Definition emit (ev : event) (st : state) : state :=
  {| vars := vars st; out := out st ++ [ev] |}.

Definition assign (f : globals -> globals) : M unit :=
  fun st => (Ok tt, {| vars := f (vars st); out := out st |}).

(** Reading a name; an unbound one is a [NameError]. *)
Definition read {A} (name : string) (f : globals -> option A) : M A :=
  fun st =>
    match f (vars st) with
    | Some v => (Ok v, st)
    | None => (Raise (Exception (py "name '" ++ py name ++ py "' is not defined")), st)
    end.

Definition set_question v g :=
  {| question := Some v; response := response g; sql_query := sql_query g;
     result_ := result_ g; llm_choice := llm_choice g; llm := llm g;
     generated_code := generated_code g; filled_prompt := filled_prompt g;
     final_response := final_response g |}.
Definition set_response v g :=
  {| question := question g; response := Some v; sql_query := sql_query g;
     result_ := result_ g; llm_choice := llm_choice g; llm := llm g;
     generated_code := generated_code g; filled_prompt := filled_prompt g;
     final_response := final_response g |}.
Definition set_sql_query v g :=
  {| question := question g; response := response g; sql_query := Some v;
     result_ := result_ g; llm_choice := llm_choice g; llm := llm g;
     generated_code := generated_code g; filled_prompt := filled_prompt g;
     final_response := final_response g |}.
Definition set_result v g :=
  {| question := question g; response := response g; sql_query := sql_query g;
     result_ := Some v; llm_choice := llm_choice g; llm := llm g;
     generated_code := generated_code g; filled_prompt := filled_prompt g;
     final_response := final_response g |}.
Definition set_llm_choice v g :=
  {| question := question g; response := response g; sql_query := sql_query g;
     result_ := result_ g; llm_choice := Some v; llm := llm g;
     generated_code := generated_code g; filled_prompt := filled_prompt g;
     final_response := final_response g |}.
Definition set_llm v g :=
  {| question := question g; response := response g; sql_query := sql_query g;
     result_ := result_ g; llm_choice := llm_choice g; llm := Some v;
     generated_code := generated_code g; filled_prompt := filled_prompt g;
     final_response := final_response g |}.
Definition set_generated_code v g :=
  {| question := question g; response := response g; sql_query := sql_query g;
     result_ := result_ g; llm_choice := llm_choice g; llm := llm g;
     generated_code := Some v; filled_prompt := filled_prompt g;
     final_response := final_response g |}.
Definition set_filled_prompt v g :=
  {| question := question g; response := response g; sql_query := sql_query g;
     result_ := result_ g; llm_choice := llm_choice g; llm := llm g;
     generated_code := generated_code g; filled_prompt := Some v;
     final_response := final_response g |}.
Definition set_final_response v g :=
  {| question := question g; response := response g; sql_query := sql_query g;
     result_ := result_ g; llm_choice := llm_choice g; llm := llm g;
     generated_code := generated_code g; filled_prompt := filled_prompt g;
     final_response := Some v |}.

Section Calls.
Variable env : Env.

Definition print (text : str) : M unit :=
  fun st => (Ok tt, emit (Print text) st).

Definition input (prompt : str) : M str :=
  fun st => (outcome (console_input env (out st) prompt), emit (Input prompt) st).

Definition invoke (m : ChatGroq) (content : str) : M str :=
  fun st => (outcome (llm_invoke env (out st) m content), emit (LlmInvoke m content) st).

Definition chain (q : str) : M str :=
  fun st => (outcome (chain_invoke env (out st) q), emit (ChainInvoke q) st).

Definition run_sql (sql : str) : M str :=
  fun st => (outcome (db_run env (out st) sql), emit (DbRun sql) st).

Definition exec (source : str) : M unit :=
  fun st => (exec_code env (out st) source, emit (Exec source) st).
End Calls.

End World.

Import World.

Declare Scope py_scope.
Delimit Scope py_scope with py.
Notation "x <- m ;; k" := (bind m (fun x => k))
  (at level 100, m at next level, right associativity) : py_scope.
Notation "m ;; k" := (bind m (fun _ => k))
  (at level 100, right associativity) : py_scope.
Open Scope py_scope.

(** ** chain.py *)

Module Chain.

(** The double quote character, which the templates contain. *)
Definition dq : str := ["034"%char].

(** [llm_groq = ChatGroq(model="llama3-8b-8192")] *)
Definition llm_groq : ChatGroq := {| model := py "llama3-8b-8192" |}.

(** [answer_prompt.format(question=..., query=..., result=...)] *)
Definition answer_prompt (question query result : str) : str :=
  py "Given the following user question, corresponding SQL query, and SQL result, answer the user question.

    Question: " ++ question ++ py "
    SQL Query: " ++ query ++ py "
    SQL Result: " ++ result ++ py "
    Answer: ".

(** [visualization_detection_prompt_template.format(input=...)] *)
Definition visualization_detection_prompt_template (input : str) : str :=
  py "
    Given the following user input, determine if the user is asking for a data visualization (such as a chart, graph, or plot).
    Please respond with either 'yes' if visualization is requested, or 'no' if no visualization is requested.

    User input: " ++ dq ++ input ++ dq ++ py "
    Visualization requested: ".

(** [sensitive_info_prompt_template.format(question=...)] *)
Definition sensitive_info_prompt_template (question : str) : str :=
  py "
    The user query might involve sensitive information or modifying the database. The query is: "
  ++ dq ++ question ++ dq ++ py "

    Please check if the query involves:
    1. Sensitive information such as passwords, authentication tokens, or security details.
    2. SQL commands that can modify the database or tables, such as INSERT, UPDATE, DELETE, DROP.

    If any of the above applies, respond with a warning message and suggest the user refine their query.
    Otherwise, simply return 'safe to proceed'.
    ".

(** The f-string [code_prompt] of [ask_llm_to_generate_code]. *)
Definition code_prompt (sql_query result : str) : str :=
  py "
    Based on the following SQL query result, generate only the Python code necessary to visualize the data.
    Do not include any extra explanations, markdown backticks, or comments.
    
    SQL Query: " ++ sql_query ++ py "
    SQL Result: " ++ result ++ py "

    The Python code should use libraries like matplotlib and pandas to create a suitable chart (bar, line, scatter, etc.).
    The chart should be saved as a PNG file in the current working directory (os.getcwd()) and use uuid for the file name, save the file in a folder named 'seyha' if it does not exist, create one.
    Ensure the chart has appropriate labels and a title.
    ".

Definition sensitive_keywords : list str :=
  [py "security"; py "password"; py "authentication"; py "token"; py "credentials"].

Definition modification_keywords : list str :=
  [py "insert"; py "update"; py "delete"; py "drop"; py "alter"; py "truncate"].

(** The pure post-processing of [ask_llm_to_generate_code], lines 141-148. *)
Definition clean_code (content : str) : str :=
  let cleaned_code := content in
  let start_code := find (py "import") cleaned_code in
  let cleaned_code := slice_from cleaned_code start_code in
  strip (replace (py "```") [] (replace (py "```python") [] cleaned_code)).

(** [response.split("SQLQuery:")[-1].strip()], line 188. *)
Definition extract_sql (response : str) : result str :=
  match split (py "SQLQuery:") response with
  | Some pieces => Ok (strip (last_piece pieces))
  | None => Raise (Exception (py "empty separator"))
  end.

(** How an iteration of the loop ends: it falls through, or it executes
    [continue] or [break]. *)
Inductive ctl : Type := Normal | Continue | Break.

(** How far the process got: it left the loop through [break], an exception
    no handler catches ended it, or it is still looping when the fuel of the
    model is spent. *)
Inductive run : Type :=
| Exited
| Died (e : exn)
| Looping.

Section Script.
Variable env : Env.


(** The [for keyword in ...] loop of [refine_prompt], lines 82-99: both
    branches under the first matching keyword return. *)
Fixpoint refine_scan (llm : ChatGroq) (question : str) (keywords : list str)
  : M bool :=
  match keywords with
  | [] => ret true
  | keyword :: rest =>
      if contains (lower keyword) (lower question) then
        print (py "Potential sensitive or modifying operation detected in the question. Refining the query...") ;;
        let prompt := sensitive_info_prompt_template question in
        response <- invoke env llm prompt ;;
        if contains (py "safe to proceed") (lower response) then
          print (py "LLM confirmed the query is safe to proceed.") ;;
          ret true
        else
          print (py "LLM response: " ++ response) ;;
          ret false
      else refine_scan llm question rest
  end.

Definition refine_prompt (llm : ChatGroq) (question : str) : M bool :=
  refine_scan llm question (sensitive_keywords ++ modification_keywords).

Definition check_for_visualization_request (llm : ChatGroq) (user_input : str)
  : M bool :=
  let prompt := visualization_detection_prompt_template user_input in
  response <- invoke env llm prompt ;;
  let is_visualization_requested := lower (strip response) in
  if str_eqb is_visualization_requested (py "yes") then ret true
  else ret false.

Definition ask_llm_to_generate_code (llm : ChatGroq) (sql_query result : str)
  : M str :=
  response <- invoke env llm (code_prompt sql_query result) ;;
  let cleaned_code := clean_code response in
  print (py "cleaned python code:
" ++ py " " ++ cleaned_code ++ py " " ++ py " end") ;;
  ret cleaned_code.

Definition execute_generated_code (generated_code : str) : M unit :=
  try_except
    (exec env generated_code ;;
     print (py "Python code executed successfully."))
    (fun e =>
       print (py "Error executing generated code: " ++ e) ;;
       print (py "Generated code:
" ++ generated_code)).

(** Lines 184-191. *)
Definition translate : M ctl :=
  try_except
    (q <- read "question" question ;;
     r <- chain env q ;;
     assign (set_response r) ;;
     r <- read "response" response ;;
     match extract_sql r with
     | Ok sql => assign (set_sql_query sql) ;; ret Normal
     | Raise e => raise e
     end)
    (fun e =>
       print (py "Warning: An error occurred while generating the SQL query: " ++ e) ;;
       ret Continue).

(** Lines 194-198. *)
Definition execute_sql : M ctl :=
  try_except
    (sql <- read "sql_query" sql_query ;;
     r <- run_sql env sql ;;
     assign (set_result r) ;;
     ret Normal)
    (fun e =>
       print (py "Warning: An error occurred while executing the SQL query: " ++ e) ;;
       ret Continue).

(** Lines 201-206. *)
Definition choose_llm : M unit :=
  line <- input env (py "Choose LLM (groq/llama2): ") ;;
  assign (set_llm_choice (lower (strip line))) ;;
  choice <- read "llm_choice" llm_choice ;;
  if str_eqb choice (py "groq") then
    assign (set_llm llm_groq)
  else
    print (py "Invalid LLM choice. Using default 'groq'.") ;;
    assign (set_llm llm_groq).

(** Lines 209-222. *)
Definition visualize : M ctl :=
  try_except
    (q <- read "question" question ;;
     wanted <- check_for_visualization_request llm_groq q ;;
     if wanted then
       print (py "Visualization requested. Generating chart...") ;;
       sql <- read "sql_query" sql_query ;;
       res <- read "result" result_ ;;
       code <- ask_llm_to_generate_code llm_groq sql res ;;
       assign (set_generated_code code) ;;
       code <- read "generated_code" generated_code ;;
       print (py "Generated Python code:
" ++ code) ;;
       code <- read "generated_code" generated_code ;;
       execute_generated_code code ;;
       ret Normal
     else
       res <- read "result" result_ ;;
       print (py "Answer: The SQL result is " ++ res) ;;
       ret Normal)
    (fun e =>
       print (py "Warning: An error occurred during visualization: " ++ e) ;;
       ret Continue).

(** Lines 225-240. *)
Definition final_answer : M ctl :=
  try_except
    (q <- read "question" question ;;
     sql <- read "sql_query" sql_query ;;
     res <- read "result" result_ ;;
     assign (set_filled_prompt (answer_prompt q sql res)) ;;
     p <- read "filled_prompt" filled_prompt ;;
     m <- read "llm" llm ;;
     r <- invoke env m p ;;
     assign (set_final_response r) ;;
     r <- read "final_response" final_response ;;
     print r ;;
     ret Normal)
    (fun e =>
       print (py "Warning: An error occurred while generating the final answer: " ++ e) ;;
       ret Continue).

(** A statement followed by the rest of the loop body: [continue] and
    [break] skip the rest. *)
Definition andthen (s : M ctl) (rest : M ctl) : M ctl :=
  c <- s ;;
  match c with
  | Normal => rest
  | other => ret other
  end.

(** The statements of the outer [try], lines 169-240. *)
Definition loop_body : M ctl :=
  line <- input env (py "Enter your question (or type 'exit' to quit): ") ;;
  assign (set_question line) ;;
  q <- read "question" question ;;
  if str_eqb (lower q) (py "exit") then
    print (py "Exiting program.") ;;
    ret Break
  else
    q <- read "question" question ;;
    ok <- refine_prompt llm_groq q ;;
    if negb ok then ret Continue
    else
      andthen translate
        (andthen execute_sql
           (choose_llm ;;
            andthen visualize final_answer)).

(** One turn of [while True], with the handlers of lines 242-245. *)
Definition iteration : M ctl :=
  fun st =>
    match loop_body st with
    | (Raise KeyboardInterrupt, st') =>
        (print (py "
Program interrupted. Please use 'exit' to quit next time.") ;;
         ret Normal) st'
    | (Raise (Exception e), st') =>
        (print (py "Unexpected error occurred: " ++ e ++ py ". Continuing the program...") ;;
         ret Normal) st'
    | r => r
    end.

(** [while True], for at most [fuel] turns. *)
Fixpoint main_loop (fuel : nat) (st : state) : run * state :=
  match fuel with
  | 0 => (Looping, st)
  | S fuel' =>
      match iteration st with
      | (Ok Break, st') => (Exited, st')
      | (Ok _, st') => main_loop fuel' st'
      | (Raise e, st') => (Died e, st')
      end
  end.

End Script.

End Chain.

Import Chain.

(** ** Reading a history *)

Module Trace.

(** The number of calls made to a model. *)
Fixpoint llm_calls (h : history) : nat :=
  match h with
  | [] => 0
  | LlmInvoke _ _ :: h' => S (llm_calls h')
  | _ :: h' => llm_calls h'
  end.

(** Every call to a model in [h] went to the client [llm]. *)
Definition calls_only (llm : ChatGroq) (h : history) : Prop :=
  Forall (fun ev => match ev with
                    | LlmInvoke m _ => m = llm
                    | _ => True
                    end) h.



(** The Answer Synthesizer was called. *)
Definition ran_answer (h : history) : bool :=
  existsb (fun ev => match ev with
                     | LlmInvoke _ c =>
                         startswith (py "Given the following user question") c
                     | _ => false
                     end) h.

End Trace.

Import Trace.

(** ** Scripted collaborators, to run the script on *)

Module Samples.

(** A console that answers the two prompts, a model that answers each of the
    four prompts of the script, a chain, a database and an [exec]. *)
Definition scripted (question_line choice_line : str)
    (safety wants_chart generated answer sql rows : reply str)
    (executed : result unit) : Env :=
  {| console_input := fun _ prompt =>
       if startswith (py "Choose LLM") prompt then Returns choice_line
       else Returns question_line;
     llm_invoke := fun _ _ content =>
       if contains (py "sensitive information or modifying") content then safety
       else if contains (py "Visualization requested: ") content then wants_chart
       else if contains (py "generate only the Python code") content then generated
       else answer;
     chain_invoke := fun _ _ => sql;
     db_run := fun _ _ => rows;
     exec_code := fun _ _ => executed |}.

Definition start : state := {| vars := unbound; out := [] |}.

(** A user who asks for a chart; the model wraps its program in prose and
    fences, and the program fails. *)
Definition chart_session : Env :=
  scripted (py "plot the top cuisines") (py "llama2")
    (Returns (py "safe to proceed")) (Returns (py "Yes")) 
    (Returns (py "Sure: ```python
import pandas as pd
```"))
    (Returns (py "Italian leads."))
    (Returns (py "Question: q
SQLQuery: SELECT cuisine_type, COUNT(1) FROM r GROUP BY cuisine_type "))
    (Returns (py "[('Italian', 25)]"))
    (Raise (Exception (py "no display"))).

(** A user who asks to drop a table; the database refuses. *)
Definition failing_db_session : Env :=
  scripted (py "please DROP the users table") (py "groq")
    (Returns (py "This looks Safe to Proceed."))
    (Returns (py "no")) (Returns (py "x")) (Returns (py "done"))
    (Returns (py "SQLQuery: DROP TABLE users"))
    (Fails (Error (py "permission denied")))
    (Ok tt).


End Samples.

(** ** Generated code in the namespace of the script *)

Module Namespace.

(** [exec(generated_code, globals())] runs the program the model wrote in
    the namespace of the script: the program can read the names the loop
    has assigned, rebind them and delete them.  A runner tells, from the
    history, the names and the source, how the run ends and what the names
    are bound to afterwards.  A name that is rebound keeps the type the
    script gave it; the functions, the templates and the clients of the
    script, and the builtins, are taken as left alone. *)
Definition runner : Type := history -> globals -> str -> result unit * globals.

Definition exec (run : runner) (source : str) : M unit :=
  fun st =>
    let (r, g) := run (out st) (vars st) source in
    (r, {| vars := g; out := out st ++ [Exec source] |}).

(** The programs that leave the names of the script alone: what
    [World.exec] takes every program to be. *)
Definition untouched (env : Env) : runner :=
  fun h g source => (exec_code env h source, g).

Section Script.
Variable env : Env.
Variable run : runner.

Definition execute_generated_code (generated_code : str) : M unit :=
  try_except
    (exec run generated_code ;;
     print (py "Python code executed successfully."))
    (fun e =>
       print (py "Error executing generated code: " ++ e) ;;
       print (py "Generated code:
" ++ generated_code)).

(** Lines 209-222. *)
Definition visualize : M ctl :=
  try_except
    (q <- read "question" question ;;
     wanted <- check_for_visualization_request env llm_groq q ;;
     if wanted then
       print (py "Visualization requested. Generating chart...") ;;
       sql <- read "sql_query" sql_query ;;
       res <- read "result" result_ ;;
       code <- ask_llm_to_generate_code env llm_groq sql res ;;
       assign (set_generated_code code) ;;
       code <- read "generated_code" generated_code ;;
       print (py "Generated Python code:
" ++ code) ;;
       code <- read "generated_code" generated_code ;;
       execute_generated_code code ;;
       ret Normal
     else
       res <- read "result" result_ ;;
       print (py "Answer: The SQL result is " ++ res) ;;
       ret Normal)
    (fun e =>
       print (py "Warning: An error occurred during visualization: " ++ e) ;;
       ret Continue).

End Script.


End Namespace.

(** ** Counting events, and strings without blank ends *)

Module Tally.

(** How many events of [h] satisfy [p]. *)
Fixpoint tally (p : event -> bool) (h : history) : nat :=
  match h with
  | [] => 0
  | ev :: h' => (if p ev then 1 else 0) + tally p h'
  end.

Definition is_llm (ev : event) : bool :=
  match ev with LlmInvoke _ _ => true | _ => false end.

Definition is_chain (ev : event) : bool :=
  match ev with ChainInvoke _ => true | _ => false end.

Definition is_db (ev : event) : bool :=
  match ev with DbRun _ => true | _ => false end.

Definition is_exec (ev : event) : bool :=
  match ev with Exec _ => true | _ => false end.

(** Every event of [h] that satisfies [q] comes after one that satisfies
    [p]; [seen] tells that such an event came before [h]. *)
Fixpoint follows (p q : event -> bool) (seen : bool) (h : history) : bool :=
  match h with
  | [] => true
  | ev :: h' => (negb (q ev) || seen) && follows p q (seen || p ev) h'
  end.

(** The first character of [s], if any, is not whitespace. *)
Definition starts_clean (s : str) : Prop :=
  match s with
  | [] => True
  | c :: _ => isspace c = false
  end.

(** The last character of [s], if any, is not whitespace. *)
Definition ends_clean (s : str) : Prop := starts_clean (rev s).

(** A console whose every read fails the same way: a closed standard input
    ([EOFError]) or a user who keeps pressing Ctrl-C. *)
Definition dead_console (f : failure) : Env :=
  {| console_input := fun _ _ => Fails f;
     llm_invoke := fun _ _ _ => Fails f;
     chain_invoke := fun _ _ => Fails f;
     db_run := fun _ _ => Fails f;
     exec_code := fun _ _ => Ok tt |}.

(** What the loop prints when a failure reaches its own handlers, lines
    242-245. *)
Definition loop_notice (f : failure) : str :=
  match f with
  | Error msg => py "Unexpected error occurred: " ++ msg ++ py ". Continuing the program..."
  | Interrupt => py "
Program interrupted. Please use 'exit' to quit next time."
  end.

End Tally.

Import Tally.

(** ** Facts about the string operations *)

Section StringFacts.

Example eleven_keywords :
  sensitive_keywords ++ modification_keywords =
  map py ["security"; "password"; "authentication"; "token"; "credentials";
          "insert"; "update"; "delete"; "drop"; "alter"; "truncate"]%string.
Proof. reflexivity. Qed.

Example lower_ex : lower (py "Please DROP It") = py "please drop it".
Proof. reflexivity. Qed.

Example replace_ex : replace (py "ab") (py "-") (py "xababyab") = py "x--y-".
Proof. reflexivity. Qed.

Example split_ex : split (py "::") (py "a::b:::c") = Some [py "a"; py "b"; py ":c"].
Proof. reflexivity. Qed.

Example find_ex : find (py "import") (py "so: import os") = 4%Z.
Proof. reflexivity. Qed.

Example slice_ex : slice_from (py "hello") (-1) = py "o".
Proof. reflexivity. Qed.

Lemma str_eqb_eq (a b : str) : str_eqb a b = true <-> a = b.
Proof.
  revert b. induction a as [|x a IH]; intros [|y b]; simpl; split; intro H;
    try reflexivity; try discriminate.
  - apply andb_true_iff in H as [Hc Hs].
    apply Ascii.eqb_eq in Hc. apply IH in Hs. congruence.
  - injection H as -> ->. rewrite Ascii.eqb_refl. simpl. now apply IH.
Qed.

Lemma startswith_app (p r : str) : startswith p (p ++ r) = true.
Proof.
  induction p as [|x p IH]; simpl; [reflexivity|].
  now rewrite Ascii.eqb_refl.
Qed.

Lemma startswith_inv (p s : str) :
  startswith p s = true -> s = p ++ skipn (length p) s.
Proof.
  revert s. induction p as [|x p IH]; intros [|y s]; simpl; intro H;
    try reflexivity; try discriminate.
  apply andb_true_iff in H as [Hc Hs].
  apply Ascii.eqb_eq in Hc. subst y. f_equal. now apply IH.
Qed.

Lemma startswith_iff (p s : str) :
  startswith p s = true <-> exists r, s = p ++ r.
Proof.
  split.
  - intro H. eexists. now apply startswith_inv.
  - intros [r ->]. apply startswith_app.
Qed.

Lemma contains_iff (sub s : str) :
  contains sub s = true <-> exists a b, s = a ++ sub ++ b.
Proof.
  induction s as [|c s IH]; simpl.
  - rewrite orb_false_r. split.
    + intro H. apply startswith_iff in H as [r Hr]. now exists [], r.
    + intros [a [b H]]. destruct a; [|discriminate].
      apply startswith_iff. now exists b.
  - rewrite orb_true_iff, IH. split.
    + intros [H|[a [b ->]]].
      * apply (startswith_iff sub (c :: s)) in H as [r Hr]. now exists [], r.
      * now exists (c :: a), b.
    + intros [[|x a] [b H]].
      * left. apply (startswith_iff sub (c :: s)). now exists b.
      * right. injection H as -> ->. now exists a, b.
Qed.

Lemma contains_false_tail (sub : str) (c : ascii) (s : str) :
  contains sub (c :: s) = false ->
  startswith sub (c :: s) = false /\ contains sub s = false.
Proof.
  simpl. intro H. now apply orb_false_iff in H.
Qed.

Lemma contains_false_infix (sub a s b : str) :
  contains sub (a ++ s ++ b) = false -> contains sub s = false.
Proof.
  intro H. destruct (contains sub s) eqn:E; [|reflexivity].
  apply contains_iff in E as [x [y ->]].
  assert (contains sub (a ++ (x ++ sub ++ y) ++ b) = true) as H'.
  { apply contains_iff. exists (a ++ x), (y ++ b).
    now rewrite <- !app_assoc. }
  congruence.
Qed.

(** [find] returns the offset of the leftmost occurrence. *)
Lemma find_nat_some (sub s : str) (i : nat) :
  find_nat sub s = Some i ->
  exists pre rest, s = pre ++ sub ++ rest /\ length pre = i /\
    forall a b, s = a ++ sub ++ b -> i <= length a.
Proof.
  revert i. induction s as [|c s IH]; intro i; simpl.
  - destruct (startswith sub []) eqn:E; [|discriminate].
    intros [= <-]. apply startswith_iff in E as [r Hr].
    exists [], r. repeat split; auto. intros; lia.
  - destruct (startswith sub (c :: s)) eqn:E.
    + intros [= <-]. apply startswith_iff in E as [r Hr].
      exists [], r. repeat split; auto. intros; lia.
    + destruct (find_nat sub s) as [j|] eqn:F; [|discriminate].
      simpl. intros [= <-].
      destruct (IH j eq_refl) as [pre [rest [-> [Hl Hmin]]]].
      exists (c :: pre), rest. repeat split; simpl; auto.
      intros [|x a] b Hab.
      * exfalso. assert (startswith sub (c :: pre ++ sub ++ rest) = true).
        { apply startswith_iff. exists b. exact Hab. }
        congruence.
      * injection Hab as _ Hab. simpl. apply Hmin in Hab. lia.
Qed.

Lemma find_nat_none (sub s : str) :
  find_nat sub s = None <-> contains sub s = false.
Proof.
  induction s as [|c s IH]; simpl.
  - destruct (startswith sub []); simpl; split; congruence.
  - destruct (startswith sub (c :: s)); simpl; [split; congruence|].
    rewrite <- IH. destruct (find_nat sub s); simpl; split; congruence.
Qed.

Lemma slice_from_offset (pre s : str) :
  slice_from (pre ++ s) (Z.of_nat (length pre)) = s.
Proof.
  unfold slice_from. rewrite length_app.
  replace (Z.of_nat (length pre) <? 0)%Z with false by (symmetry; apply Z.ltb_ge; lia).
  rewrite Z.min_l by lia. rewrite Nat2Z.id.
  rewrite skipn_app, skipn_all, Nat.sub_diag. reflexivity.
Qed.

(** [s[-1:]] is the last character, or nothing. *)
Lemma slice_from_minus_one (s : str) :
  slice_from s (-1) = match rev s with [] => [] | c :: _ => [c] end.
Proof.
  destruct s as [|c s] using rev_ind; [reflexivity|].
  rewrite rev_app_distr. simpl. unfold slice_from.
  rewrite length_app. simpl length.
  replace (-1 <? 0)%Z with true by reflexivity.
  replace (Z.to_nat (Z.max 0 (-1 + Z.of_nat (length s + 1)))) with (length s) by lia.
  rewrite skipn_app, skipn_all, Nat.sub_diag. reflexivity.
Qed.

Lemma lstrip_app_keep (x : str) (c : ascii) (y : str) :
  isspace c = false -> lstrip (x ++ c :: y) = lstrip x ++ c :: y.
Proof.
  intro Hc. induction x as [|d x IH]; simpl.
  - now rewrite Hc.
  - destruct (isspace d); auto.
Qed.

Lemma rstrip_app_keep (a : str) (c : ascii) (r : str) :
  isspace c = false -> rstrip (a ++ c :: r) = a ++ c :: rstrip r.
Proof.
  intro Hc. unfold rstrip.
  rewrite rev_app_distr. simpl. rewrite <- app_assoc. simpl.
  rewrite lstrip_app_keep by exact Hc.
  rewrite rev_app_distr. simpl. rewrite rev_involutive, <- app_assoc.
  reflexivity.
Qed.

Lemma lstrip_suffix (s : str) : exists a, s = a ++ lstrip s.
Proof.
  induction s as [|c s [a IH]]; simpl.
  - now exists [].
  - destruct (isspace c).
    + exists (c :: a). simpl. now f_equal.
    + now exists [].
Qed.

Lemma rstrip_prefix (s : str) : exists b, s = rstrip s ++ b.
Proof.
  unfold rstrip. destruct (lstrip_suffix (rev s)) as [a Ha].
  exists (rev a). rewrite <- rev_app_distr, <- Ha. now rewrite rev_involutive.
Qed.

Lemma strip_infix (s : str) : exists a b, s = a ++ strip s ++ b.
Proof.
  unfold strip. destruct (rstrip_prefix s) as [b Hb].
  destruct (lstrip_suffix (rstrip s)) as [a Ha].
  exists a, b. rewrite app_assoc, <- Ha. exact Hb.
Qed.

Lemma strip_single (c : ascii) :
  strip [c] = if isspace c then [] else [c].
Proof.
  unfold strip, rstrip. simpl. destruct (isspace c) eqn:E; simpl;
    [reflexivity | now rewrite E].
Qed.

End StringFacts.

Section ReplaceSplitFacts.

Lemma replace_ne_cons (o : ascii) (old new : str) (c : ascii) (s : str) :
  replace_ne o old new (c :: s) =
  if startswith (o :: old) (c :: s)
  then new ++ replace_ne o old new (skipn (length old) s)
  else c :: replace_ne o old new s.
Proof.
  simp replace_ne. destruct (startswith (o :: old) (c :: s)); reflexivity.
Qed.

Lemma replace_ne_keep (o : ascii) (old new : str) (c : ascii) (s : str) :
  Ascii.eqb o c = false ->
  replace_ne o old new (c :: s) = c :: replace_ne o old new s.
Proof.
  intro H. rewrite replace_ne_cons. simpl. now rewrite H.
Qed.

(** A string shorter than [old] has nothing to replace. *)
Lemma replace_ne_single (o x : ascii) (old new : str) (c : ascii) :
  replace_ne o (x :: old) new [c] = [c].
Proof.
  rewrite replace_ne_cons. simpl. rewrite andb_false_r.
  now simp replace_ne.
Qed.

Lemma unfence_head (s : str) :
  startswith ["`"; "`"]%char s = false ->
  startswith ["`"; "`"]%char (replace_ne "`" ["`"; "`"]%char [] s) = false.
Proof.
  destruct s as [|c1 s]; [now simp replace_ne|].
  destruct (Ascii.eqb "`" c1) eqn:E1.
  - intro H. cbn [startswith] in H. rewrite E1 in H. cbn [andb] in H.
    assert (startswith ["`"; "`"]%char s = false) as H2.
    { destruct s as [|c2 s]; [reflexivity|].
      cbn [startswith] in *. now destruct (Ascii.eqb "`" c2). }
    rewrite replace_ne_cons. cbn [startswith]. rewrite E1. cbn [andb].
    cbn [startswith] in H2. rewrite H2.
    cbn [startswith]. rewrite E1. cbn [andb].
    destruct s as [|c2 s]; [now simp replace_ne|].
    cbn [startswith] in H. rewrite andb_true_r in H.
    rewrite replace_ne_keep by exact H. cbn [startswith]. now rewrite H.
  - intros _. rewrite replace_ne_keep by exact E1.
    cbn [startswith]. now rewrite E1.
Qed.

(** No fence is left after the fences are replaced by nothing. *)
Lemma unfence_clean (s : str) :
  contains (py "```") (replace (py "```") [] s) = false.
Proof.
  change (contains ["`"; "`"; "`"]%char
            (replace_ne "`" ["`"; "`"]%char [] s) = false).
  remember (length s) as n eqn:Hn.
  assert (length s <= n) as Hle by lia. clear Hn.
  revert s Hle. induction n as [|n IH]; intros s Hle.
  - destruct s; [|simpl in Hle; lia]. now simp replace_ne.
  - destruct s as [|c s]; [now simp replace_ne|].
    simpl in Hle. rewrite replace_ne_cons.
    destruct (startswith ["`"; "`"; "`"]%char (c :: s)) eqn:E.
    + cbn [app]. apply IH. rewrite length_skipn. lia.
    + cbn [contains]. apply orb_false_iff. split; [|apply IH; lia].
      cbn [startswith] in *. destruct (Ascii.eqb "`" c); [|reflexivity].
      cbn [andb] in *. apply (unfence_head s). exact E.
Qed.

Lemma split_ne_cons (o : ascii) (sep : str) (c : ascii) (s cur : str) :
  split_ne o sep (c :: s) cur =
  if startswith (o :: sep) (c :: s)
  then rev cur :: split_ne o sep (skipn (length sep) s) []
  else split_ne o sep s (c :: cur).
Proof.
  simp split_ne. destruct (startswith (o :: sep) (c :: s)); reflexivity.
Qed.

Lemma split_ne_nonempty (o : ascii) (sep s cur : str) :
  split_ne o sep s cur <> [].
Proof.
  revert cur. induction s as [|c s IH]; intro cur.
  - now simp split_ne.
  - rewrite split_ne_cons. destruct (startswith (o :: sep) (c :: s)).
    + discriminate.
    + apply IH.
Qed.

(** Without a separator the whole string is the only piece. *)
Lemma split_ne_absent (o : ascii) (sep s cur : str) :
  contains (o :: sep) s = false -> split_ne o sep s cur = [rev cur ++ s].
Proof.
  revert cur. induction s as [|c s IH]; intros cur H.
  - simp split_ne. now rewrite app_nil_r.
  - apply contains_false_tail in H as [H1 H2].
    rewrite split_ne_cons, H1, IH by exact H2.
    simpl. now rewrite <- app_assoc.
Qed.

Lemma last_skip_head (x : str) (l : list str) :
  l <> [] -> last (x :: l) [] = last l [].
Proof. destruct l; [congruence | reflexivity]. Qed.

(** Two occurrences of a separator whose first character occurs nowhere
    else in it cannot overlap. *)
Lemma no_overlap (o : ascii) (sep r a t : str) :
  ~ In o sep -> sep ++ r = a ++ o :: t ->
  exists a', a = sep ++ a' /\ r = a' ++ o :: t.
Proof.
  intro Hin. revert a. induction sep as [|x sep IH]; intros a H.
  - exists a. auto.
  - destruct a as [|y a].
    + simpl in H. injection H as -> _. exfalso. apply Hin. now left.
    + simpl in H. injection H as -> H.
      destruct (IH (fun K => Hin (or_intror K)) a H) as [a' [-> ->]].
      now exists a'.
Qed.

(** The last piece of a split is what follows the last separator. *)
Lemma split_ne_last (o : ascii) (sep : str) :
  ~ In o sep ->
  forall n s, length s <= n -> forall cur a b,
  s = a ++ (o :: sep) ++ b ->
  (forall a' b', s = a' ++ (o :: sep) ++ b' -> length a' <= length a) ->
  last (split_ne o sep s cur) [] = b.
Proof.
  intros Hin n. induction n as [|n IH]; intros s Hle cur a b Hs Hlast.
  - subst s. rewrite length_app in Hle. simpl in Hle. lia.
  - destruct s as [|c s].
    { destruct a; discriminate. }
    simpl in Hle. rewrite split_ne_cons.
    destruct (startswith (o :: sep) (c :: s)) eqn:E.
    + rewrite last_skip_head by apply split_ne_nonempty.
      apply startswith_inv in E. simpl in E.
      set (r := skipn (length sep) s) in *.
      injection E as Ec E. subst c.
      destruct a as [|a0 a].
      * simpl in Hs. injection Hs as Hs. rewrite E in Hs.
        apply app_inv_head in Hs. subst b.
        rewrite split_ne_absent; [reflexivity|].
        destruct (contains (o :: sep) r) eqn:C; [|reflexivity].
        apply contains_iff in C as [x [y Hxy]].
        specialize (Hlast ((o :: sep) ++ x) y).
        simpl in Hlast. rewrite <- app_assoc in Hlast.
        rewrite E, Hxy in Hlast. specialize (Hlast eq_refl). simpl in Hlast. lia.
      * simpl in Hs. injection Hs as Ha Hs. subst a0. rewrite E in Hs.
        destruct (no_overlap _ _ _ _ _ Hin Hs) as [a' [-> Hr]].
        apply (IH r) with (a := a').
        -- unfold r. rewrite length_skipn. lia.
        -- exact Hr.
        -- intros a3 b3 H3.
           specialize (Hlast ((o :: sep) ++ a3) b3).
           simpl in Hlast. rewrite <- app_assoc in Hlast.
           rewrite E, H3 in Hlast. specialize (Hlast eq_refl).
           simpl in Hlast. rewrite !length_app in Hlast. lia.
    + destruct a as [|a0 a].
      * simpl in Hs. rewrite Hs in E.
        change (o :: sep ++ b) with ((o :: sep) ++ b) in E.
        rewrite startswith_app in E. discriminate.
      * simpl in Hs. injection Hs as Ha Hs. subst a0.
        apply (IH s) with (a := a); [lia | exact Hs |].
        intros a3 b3 H3. specialize (Hlast (c :: a3) b3).
        simpl in Hlast. rewrite H3 in Hlast. specialize (Hlast eq_refl). lia.
Qed.

End ReplaceSplitFacts.

(** ** The pure steps of the script *)

Section PureSteps.

Lemma extract_sql_ok (response : str) :
  extract_sql response =
  Ok (strip (last (split_ne "S" (py "QLQuery:") response []) [])).
Proof. reflexivity. Qed.

(** After the last marker. *)
Lemma extract_sql_last (response a b : str) :
  response = a ++ py "SQLQuery:" ++ b ->
  (forall a' b', response = a' ++ py "SQLQuery:" ++ b' -> length a' <= length a) ->
  extract_sql response = Ok (strip b).
Proof.
  intros Hs Hlast. rewrite extract_sql_ok. do 2 f_equal.
  apply (split_ne_last "S"%char (py "QLQuery:")) with (n := length response) (a := a).
  - cbv. intuition discriminate.
  - lia.
  - exact Hs.
  - exact Hlast.
Qed.

Lemma extract_sql_absent (response : str) :
  contains (py "SQLQuery:") response = false ->
  extract_sql response = Ok (strip response).
Proof.
  intro H. rewrite extract_sql_ok.
  rewrite (split_ne_absent "S"%char (py "QLQuery:")) by exact H.
  reflexivity.
Qed.

(** The cut at the first "import". *)
Lemma cut_at_import (reply : str) :
  contains (py "import") reply = true ->
  exists pre rest,
    reply = pre ++ py "import" ++ rest /\
    (forall a b, reply = a ++ py "import" ++ b -> length pre <= length a) /\
    slice_from reply (find (py "import") reply) = py "import" ++ rest.
Proof.
  intro H. unfold find.
  destruct (find_nat (py "import") reply) as [i|] eqn:F.
  - destruct (find_nat_some _ _ _ F) as [pre [rest [Hr [Hl Hmin]]]].
    exists pre, rest. repeat split; auto.
    + intros a b Hab. rewrite Hl. now apply (Hmin a b).
    + rewrite Hr at 1. rewrite <- Hl. apply slice_from_offset.
  - apply find_nat_none in F. congruence.
Qed.

Lemma unfence_import (rest : str) :
  exists rest',
    replace (py "```") [] (replace (py "```python") [] (py "import" ++ rest))
    = py "import" ++ rest'.
Proof.
  exists (replace (py "```") [] (replace (py "```python") [] rest)).
  change (replace (py "```python") []) with (replace_ne "`" (py "``python") []).
  change (replace (py "```") []) with (replace_ne "`" (py "``") []).
  change (py "import" ++ rest) with ("i" :: "m" :: "p" :: "o" :: "r" :: "t" :: rest)%char.
  rewrite !(replace_ne_keep "`"%char) by reflexivity.
  reflexivity.
Qed.

Lemma strip_import (rest : str) :
  startswith (py "import") (strip (py "import" ++ rest)) = true.
Proof.
  unfold strip.
  change (py "import" ++ rest) with (py "impor" ++ "t"%char :: rest).
  rewrite rstrip_app_keep by reflexivity.
  reflexivity.
Qed.

End PureSteps.

(** ** The functions of the script *)

Section Functions.

Variable env : Env.

Lemma llm_calls_app (h1 h2 : history) :
  llm_calls (h1 ++ h2) = llm_calls h1 + llm_calls h2.
Proof.
  induction h1 as [|ev h1 IH]; [reflexivity|].
  destruct ev; simpl; rewrite IH; reflexivity.
Qed.

(** No keyword matches: the scan falls through. *)
Lemma refine_scan_miss (llm : ChatGroq) (q : str) (ks : list str) (st : state) :
  (forall k, In k ks -> contains (lower k) (lower q) = false) ->
  refine_scan env llm q ks st = (Ok true, st).
Proof.
  induction ks as [|k ks IH]; intro H; [reflexivity|].
  cbn [refine_scan]. rewrite (H k) by now left.
  apply IH. intros k' Hk'. apply H. now right.
Qed.

(** Some keyword matches: the first one that does asks the model, once. *)
Lemma refine_scan_hit (llm : ChatGroq) (q : str) (ks : list str) (st : state) :
  (exists k, In k ks /\ contains (lower k) (lower q) = true) ->
  refine_scan env llm q ks st =
  let st1 := emit (Print (py "Potential sensitive or modifying operation detected in the question. Refining the query...")) st in
  let st2 := emit (LlmInvoke llm (sensitive_info_prompt_template q)) st1 in
  match llm_invoke env (out st1) llm (sensitive_info_prompt_template q) with
  | Returns reply =>
      if contains (py "safe to proceed") (lower reply)
      then (Ok true, emit (Print (py "LLM confirmed the query is safe to proceed.")) st2)
      else (Ok false, emit (Print (py "LLM response: " ++ reply)) st2)
  | Fails f => (Raise (raised f), st2)
  end.
Proof.
  induction ks as [|k ks IH]; intros [k' [Hin Hk']]; [destruct Hin|].
  cbn [refine_scan].
  destruct (contains (lower k) (lower q)) eqn:E.
  - unfold bind, print, invoke, ret. cbn [out emit vars].
    destruct (llm_invoke env _ llm _) as [reply|f]; cbn [outcome]; [|reflexivity].
    destruct (contains (py "safe to proceed") (lower reply)); reflexivity.
  - apply IH. destruct Hin as [<-|Hin]; [congruence|]. now exists k'.
Qed.

Lemma check_for_visualization_request_returns
    (llm : ChatGroq) (user_input : str) (st : state) (reply : str) :
  llm_invoke env (out st) llm (visualization_detection_prompt_template user_input)
  = Returns reply ->
  check_for_visualization_request env llm user_input st =
  (Ok (str_eqb (lower (strip reply)) (py "yes")),
   emit (LlmInvoke llm (visualization_detection_prompt_template user_input)) st).
Proof.
  intro H. unfold check_for_visualization_request, bind, invoke, ret.
  rewrite H. cbn [outcome]. now destruct (str_eqb _ _).
Qed.

Lemma ask_llm_to_generate_code_returns
    (llm : ChatGroq) (sql res : str) (st : state) (reply : str) :
  llm_invoke env (out st) llm (code_prompt sql res) = Returns reply ->
  ask_llm_to_generate_code env llm sql res st =
  (Ok (clean_code reply),
   emit (Print (py "cleaned python code:
" ++ py " " ++ clean_code reply ++ py " " ++ py " end"))
     (emit (LlmInvoke llm (code_prompt sql res)) st)).
Proof.
  intro H. unfold ask_llm_to_generate_code, bind, invoke, print, ret.
  rewrite H. reflexivity.
Qed.

End Functions.

(** C2. A question in which none of the eleven keywords occurs, letter case
    aside, passes the Safety Classifier at once: [refine_prompt] returns
    [True] and leaves the history as it was, so no model is called. *)
Theorem refine_prompt_fast_path
    (env : Env) (llm : ChatGroq) (question : str) (st : state) :
  (forall keyword, In keyword (sensitive_keywords ++ modification_keywords) ->
     contains (lower keyword) (lower question) = false) ->
  refine_prompt env llm question st = (Ok true, st) /\
  llm_calls (out (snd (refine_prompt env llm question st))) = llm_calls (out st).
Proof.
  intro H. unfold refine_prompt. rewrite refine_scan_miss by exact H.
  split; reflexivity.
Qed.

Lemma refine_prompt_fast_path_witness :
  refine_prompt Samples.chart_session llm_groq (py "What are the top cuisines?") Samples.start
    = (Ok true, Samples.start) /\
  llm_calls (out (snd (refine_prompt Samples.chart_session llm_groq
                         (py "What are the top cuisines?") Samples.start)))
    = llm_calls (out Samples.start).
Proof.
  apply (refine_prompt_fast_path Samples.chart_session llm_groq
           (py "What are the top cuisines?") Samples.start).
  intros keyword Hin. simpl in Hin.
  repeat (destruct Hin as [<-|Hin]; [reflexivity|]). destruct Hin.
Defined.

(** C1. A question in which one of the eleven keywords occurs, letter case
    aside, makes [refine_prompt] call the model exactly once, with the
    sensitive-information prompt; when the model replies, the verdict is
    [True] exactly when the lower-cased reply contains "safe to proceed", and
    when the call raises, the exception leaves [refine_prompt]. *)
Theorem refine_prompt_sensitive
    (env : Env) (llm : ChatGroq) (question : str) (st : state) :
  (exists keyword, In keyword (sensitive_keywords ++ modification_keywords) /\
     contains (lower keyword) (lower question) = true) ->
  let asked := out st ++ [Print (py "Potential sensitive or modifying operation detected in the question. Refining the query...")] in
  let prompt := sensitive_info_prompt_template question in
  let after := snd (refine_prompt env llm question st) in
  llm_calls (out after) = S (llm_calls (out st)) /\
  (exists tail, out after = asked ++ LlmInvoke llm prompt :: tail /\ llm_calls tail = 0) /\
  match llm_invoke env asked llm prompt with
  | Returns reply =>
      exists verdict,
        fst (refine_prompt env llm question st) = Ok verdict /\
        (verdict = true <-> contains (py "safe to proceed") (lower reply) = true)
  | Fails f => fst (refine_prompt env llm question st) = Raise (raised f)
  end.
Proof.
  intros H asked prompt after. subst after asked prompt.
  unfold refine_prompt. rewrite refine_scan_hit by exact H.
  cbn [out emit vars].
  destruct (llm_invoke env _ llm _) as [reply|e].
  - destruct (contains (py "safe to proceed") (lower reply)) eqn:E;
      cbn [fst snd out emit vars]; repeat rewrite <- app_assoc; cbn [app];
      (split; [rewrite llm_calls_app; simpl; lia|]);
      (split; [eexists; split; [repeat rewrite <- app_assoc; reflexivity|reflexivity]|]).
    + exists true. intuition.
    + exists false. intuition congruence.
  - cbn [fst snd out emit vars]. repeat rewrite <- app_assoc. cbn [app].
    split; [rewrite llm_calls_app; simpl; lia|].
    split; [exists []; split; [repeat rewrite <- app_assoc|]; reflexivity | reflexivity].
Qed.

Lemma refine_prompt_sensitive_witness :
  let env := Samples.failing_db_session in
  let question := py "please DROP the users table" in
  let st := Samples.start in
  let asked := out st ++ [Print (py "Potential sensitive or modifying operation detected in the question. Refining the query...")] in
  let prompt := sensitive_info_prompt_template question in
  let after := snd (refine_prompt env llm_groq question st) in
  llm_calls (out after) = S (llm_calls (out st)) /\
  (exists tail, out after = asked ++ LlmInvoke llm_groq prompt :: tail /\ llm_calls tail = 0) /\
  match llm_invoke env asked llm_groq prompt with
  | Returns reply =>
      exists verdict,
        fst (refine_prompt env llm_groq question st) = Ok verdict /\
        (verdict = true <-> contains (py "safe to proceed") (lower reply) = true)
  | Fails f => fst (refine_prompt env llm_groq question st) = Raise (raised f)
  end.
Proof.
  apply (refine_prompt_sensitive Samples.failing_db_session llm_groq
           (py "please DROP the users table") Samples.start).
  exists (py "drop"). split; [simpl; tauto | reflexivity].
Defined.

Section Blocks.

Variable env : Env.

Lemma translate_returns (st : state) (q resp sql : str) :
  question (vars st) = Some q ->
  chain_invoke env (out st) q = Returns resp ->
  extract_sql resp = Ok sql ->
  translate env st =
  (Ok Normal, {| vars := set_sql_query sql (set_response resp (vars st));
                 out := out st ++ [ChainInvoke q] |}).
Proof.
  intros Hq Hc Hx.
  unfold translate, try_except, bind, read, chain, assign, ret, emit.
  rewrite Hq. cbn [out vars]. rewrite Hc. cbn [outcome response set_response vars out].
  rewrite Hx. reflexivity.
Qed.

Lemma execute_sql_runs (st : state) (sql : str) :
  sql_query (vars st) = Some sql ->
  execute_sql env st =
  match db_run env (out st) sql with
  | Returns rows => (Ok Normal, {| vars := set_result rows (vars st);
                                   out := out st ++ [DbRun sql] |})
  | Fails (Error msg) =>
      (Ok Continue,
       {| vars := vars st;
          out := (out st ++ [DbRun sql]) ++
                 [Print (py "Warning: An error occurred while executing the SQL query: " ++ msg)] |})
  | Fails Interrupt =>
      (Raise KeyboardInterrupt, {| vars := vars st; out := out st ++ [DbRun sql] |})
  end.
Proof.
  intro Hs.
  unfold execute_sql, try_except, bind, read, run_sql, assign, ret, print, emit.
  rewrite Hs. cbn [out vars].
  destruct (db_run env (out st) sql) as [rows|[msg|]]; reflexivity.
Qed.

End Blocks.

(** C4. Whatever text the SQL chain returns, the statement handed to the
    database is the text after the last "SQLQuery:" of it, stripped of
    surrounding whitespace, and the whole text, stripped, when it has no
    such marker. *)
Theorem sql_is_text_after_last_marker
    (env : Env) (st : state) (q response : str) :
  question (vars st) = Some q ->
  chain_invoke env (out st) q = Returns response ->
  exists sql tail,
    out (snd (andthen (translate env) (execute_sql env) st))
      = out st ++ [ChainInvoke q; DbRun sql] ++ tail /\
    (forall a b,
       response = a ++ py "SQLQuery:" ++ b ->
       (forall a' b', response = a' ++ py "SQLQuery:" ++ b' -> length a' <= length a) ->
       sql = strip b) /\
    (contains (py "SQLQuery:") response = false -> sql = strip response).
Proof.
  intros Hq Hc.
  pose proof (extract_sql_ok response) as Hx.
  set (sql := strip (last (split_ne "S" (py "QLQuery:") response []) [])) in Hx.
  exists sql.
  assert (exists tail,
             out (snd (andthen (translate env) (execute_sql env) st))
             = out st ++ [ChainInvoke q; DbRun sql] ++ tail) as [tail Ht].
  { unfold andthen, bind.
    rewrite (translate_returns env st q response sql Hq Hc Hx).
    rewrite (execute_sql_runs env _ sql) by reflexivity.
    cbn [out vars].
    destruct (db_run env _ sql) as [rows|[msg|]]; cbn [snd out];
      repeat rewrite <- app_assoc; cbn [app]; eexists; reflexivity. }
  exists tail. split; [exact Ht|]. split.
  - intros a b Ha Hlast. pose proof (extract_sql_last response a b Ha Hlast) as H.
    rewrite Hx in H. congruence.
  - intro Habs. pose proof (extract_sql_absent response Habs) as H.
    rewrite Hx in H. congruence.
Qed.

Lemma sql_is_text_after_last_marker_witness :
  exists sql tail,
    out (snd (andthen (translate Samples.chart_session)
                (execute_sql Samples.chart_session)
                {| vars := set_question (py "plot") unbound; out := [] |}))
      = [] ++ [ChainInvoke (py "plot"); DbRun sql] ++ tail /\
    sql = py "SELECT cuisine_type, COUNT(1) FROM r GROUP BY cuisine_type".
Proof.
  destruct (sql_is_text_after_last_marker Samples.chart_session
              {| vars := set_question (py "plot") unbound; out := [] |}
              (py "plot") _ eq_refl eq_refl) as [sql [tail [Hout [Hlast _]]]].
  exists sql, tail. split; [exact Hout|].
  apply (Hlast (py "Question: q
") (py " SELECT cuisine_type, COUNT(1) FROM r GROUP BY cuisine_type ")).
  - reflexivity.
  - intros a' b' H.
    destruct (le_lt_dec (length a') 12) as [Hle|Hgt]; [exact Hle|exfalso].
    assert (contains (py "SQLQuery:") (skipn 13 (py "Question: q
SQLQuery: SELECT cuisine_type, COUNT(1) FROM r GROUP BY cuisine_type ")) = true) as C.
    { rewrite H. apply contains_iff.
      exists (skipn 13 a'), b'.
      rewrite skipn_app.
      replace (13 - length a') with 0 by lia. reflexivity. }
    vm_compute in C. discriminate.
Defined.

(** C5. When the model replies, [check_for_visualization_request] returns
    [True] exactly when the reply, stripped and lower-cased, is "yes"; "no",
    "No", "maybe" and the empty reply all give [False]. *)
Theorem visualization_verdict
    (env : Env) (llm : ChatGroq) (user_input : str) (st : state) (reply : str) :
  llm_invoke env (out st) llm (visualization_detection_prompt_template user_input)
  = Returns reply ->
  exists verdict,
    check_for_visualization_request env llm user_input st =
      (Ok verdict,
       emit (LlmInvoke llm (visualization_detection_prompt_template user_input)) st) /\
    (verdict = true <-> lower (strip reply) = py "yes") /\
    (In reply [py "no"; py "No"; py "maybe"; py ""] -> verdict = false).
Proof.
  intro H. exists (str_eqb (lower (strip reply)) (py "yes")).
  split; [now apply check_for_visualization_request_returns|].
  split; [apply str_eqb_eq|].
  intro Hin. simpl in Hin.
  repeat (destruct Hin as [<-|Hin]; [reflexivity|]). destruct Hin.
Qed.

Lemma visualization_verdict_witness :
  exists verdict,
    check_for_visualization_request Samples.chart_session llm_groq (py "plot it")
      Samples.start =
      (Ok verdict,
       emit (LlmInvoke llm_groq (visualization_detection_prompt_template (py "plot it")))
         Samples.start) /\
    (verdict = true <-> lower (strip (py "Yes")) = py "yes") /\
    (In (py "Yes") [py "no"; py "No"; py "maybe"; py ""] -> verdict = false).
Proof.
  apply (visualization_verdict Samples.chart_session llm_groq (py "plot it")
           Samples.start (py "Yes")).
  reflexivity.
Defined.




(** C10, as the script behaves.  When the model's reply to the code prompt
    contains no "import", [find] gives -1 and the slice [[-1:]] keeps the
    last character of the reply, or nothing when the reply is empty;
    nothing is raised, and the returned code is that slice with the fence
    markers replaced and stripped: the last character when it is not
    whitespace, the empty string otherwise.  It differs from the reply as
    soon as the reply has two characters. *)
Theorem generated_code_without_import
    (env : Env) (llm : ChatGroq) (sql res : str) (st : state) (reply : str) :
  llm_invoke env (out st) llm (code_prompt sql res) = Returns reply ->
  contains (py "import") reply = false ->
  find (py "import") reply = (-1)%Z /\
  fst (ask_llm_to_generate_code env llm sql res st) = Ok (clean_code reply) /\
  clean_code reply =
    strip (replace (py "```") [] (replace (py "```python") [] (slice_from reply (-1)))) /\
  clean_code reply =
    match rev reply with
    | [] => []
    | c :: _ => if isspace c then [] else [c]
    end /\
  (2 <= length reply -> clean_code reply <> reply).
Proof.
  intros Hllm Himp.
  assert (find (py "import") reply = (-1)%Z) as Hfind.
  { unfold find. apply find_nat_none in Himp. now rewrite Himp. }
  assert (clean_code reply =
          match rev reply with
          | [] => []
          | c :: _ => if isspace c then [] else [c]
          end) as Hlast.
  { unfold clean_code. rewrite Hfind, slice_from_minus_one.
    destruct (rev reply) as [|c r]; [reflexivity|].
    change (replace (py "```python") [] [c])
      with (replace_ne "`" ("`"%char :: py "`python") [] [c]).
    rewrite (replace_ne_single "`"%char "`"%char).
    change (replace (py "```") [] [c]) with (replace_ne "`" ("`"%char :: py "`") [] [c]).
    rewrite (replace_ne_single "`"%char "`"%char).
    apply strip_single. }
  repeat split; auto.
  - now rewrite (ask_llm_to_generate_code_returns env llm sql res st reply Hllm).
  - unfold clean_code. now rewrite Hfind.
  - intros Hlen Heq. rewrite Hlast in Heq.
    assert (length reply <= 1); [|lia].
    rewrite <- Heq. destruct (rev reply) as [|c r]; simpl; [lia|].
    destruct (isspace c); simpl; lia.
Qed.

Lemma generated_code_without_import_witness :
  clean_code (py "print(df) ") = [] /\
  clean_code (py "print(df) ") <> py "print(df) ".
Proof.
  destruct (generated_code_without_import
              (Samples.scripted [] [] (Returns []) (Returns []) (Returns (py "print(df) "))
                 (Returns []) (Returns []) (Returns []) (Ok tt))
              llm_groq (py "SELECT 1") (py "[(1,)]") Samples.start
              (py "print(df) ") eq_refl eq_refl) as [_ [_ [_ [Hlast Hne]]]].
  split; [exact Hlast | apply Hne; simpl; lia].
Defined.

(** C10, as it is worded, fails on a reply of one character: the code
    returned is the reply, unchanged. *)
Lemma one_character_reply_is_returned_unchanged :
  let env := Samples.scripted [] [] (Returns []) (Returns []) (Returns (py "x"))
               (Returns []) (Returns []) (Returns []) (Ok tt) in
  let reply := py "x" in
  llm_invoke env (out Samples.start) llm_groq (code_prompt (py "SELECT 1") (py "[(1,)]"))
    = Returns reply /\
  contains (py "import") reply = false /\
  fst (ask_llm_to_generate_code env llm_groq (py "SELECT 1") (py "[(1,)]") Samples.start)
    = Ok reply.
Proof. repeat split. Qed.

(** ** The loop *)

Ltac reduce :=
  cbn [fst snd vars out emit question response sql_query result_
       llm_choice llm generated_code filled_prompt final_response
       set_question set_response set_sql_query set_result
       set_llm_choice set_llm set_generated_code set_filled_prompt
       set_final_response negb outcome raised].

Ltac unfold_script :=
  unfold iteration, loop_body, andthen, translate, execute_sql, choose_llm,
    visualize, final_answer, check_for_visualization_request,
    ask_llm_to_generate_code, execute_generated_code, try_except, bind, read,
    assign, ret, raise, print, input, invoke, chain, run_sql, exec, emit.

Tactic Notation "tidy" := repeat rewrite <- app_assoc; cbn [app].
Tactic Notation "tidy" "in" hyp(H) := repeat rewrite <- app_assoc in H; cbn [app] in H.

Section Loop.

Variable env : Env.

(** [refine_prompt] reads and writes no module-level name: what it returns
    and what it adds to the history depend on the history alone, and the
    only client it calls is the one it was given. *)
Lemma refine_prompt_local (llm : ChatGroq) (q : str) (h : history) :
  exists r evs,
    calls_only llm evs /\
    forall g,
      refine_prompt env llm q {| vars := g; out := h |}
      = (r, {| vars := g; out := h ++ evs |}).
Proof.
  unfold refine_prompt.
  destruct (existsb (fun k => contains (lower k) (lower q))
              (sensitive_keywords ++ modification_keywords)) eqn:E.
  - apply existsb_exists in E.
    pose proof (fun g => refine_scan_hit env llm q _ {| vars := g; out := h |} E) as H.
    unfold emit in H. cbn [out vars] in H.
    destruct (llm_invoke env _ llm _) as [reply|e].
    + destruct (contains (py "safe to proceed") (lower reply));
        do 2 eexists; (split; [|intro g; rewrite H; repeat rewrite <- app_assoc;
                                 cbn [app]; reflexivity]);
        repeat constructor.
    + do 2 eexists; (split; [|intro g; rewrite H; repeat rewrite <- app_assoc;
                               cbn [app]; reflexivity]).
      repeat constructor.
  - exists (Ok true), []. split; [constructor|].
    intro g. rewrite app_nil_r. apply refine_scan_miss.
    intros k Hk. destruct (contains (lower k) (lower q)) eqn:C; [|reflexivity].
    assert (existsb (fun k => contains (lower k) (lower q))
              (sensitive_keywords ++ modification_keywords) = true) as E'.
    { apply existsb_exists. now exists k. }
    congruence.
Qed.

Ltac crunch :=
  repeat (reduce;
          first
            [ match goal with
              | |- context [refine_prompt env ?l ?q {| vars := _; out := ?h |}] =>
                  let r := fresh "r" in
                  let evs := fresh "evs" in
                  let Hm := fresh "Hm" in
                  let Hr := fresh "Hr" in
                  destruct (refine_prompt_local l q h) as [r [evs [Hm Hr]]];
                  rewrite !Hr
              end
            | match goal with
              | |- context [match ?x with _ => _ end] =>
                  lazymatch x with
                  | context [match _ with _ => _ end] => fail
                  | _ => destruct x eqn:?
                  end
              end ]);
  reduce.



(** Every client an iteration calls is [llm_groq]. *)
Lemma iteration_calls_groq (st : state) :
  exists evs,
    out (snd (iteration env st)) = out st ++ evs /\ calls_only llm_groq evs.
Proof.
  destruct st as [g h]. unfold_script.
  crunch; tidy; (eexists; split; [reflexivity|]);
    unfold calls_only in *;
    repeat first [ apply Forall_nil | apply Forall_cons
                 | apply Forall_app; split | assumption
                 | exact I | reflexivity ].
Qed.




Lemma visualize_declined (st : state) (q res reply : str) :
  question (vars st) = Some q ->
  result_ (vars st) = Some res ->
  llm_invoke env (out st) llm_groq (visualization_detection_prompt_template q)
  = Returns reply ->
  str_eqb (lower (strip reply)) (py "yes") = false ->
  visualize env st =
  (Ok Normal,
   {| vars := vars st;
      out := out st ++ [LlmInvoke llm_groq (visualization_detection_prompt_template q);
                        Print (py "Answer: The SQL result is " ++ res)] |}).
Proof.
  intros Hq Hres Hllm Hno. unfold_script. reduce.
  rewrite Hq. reduce. rewrite Hllm. reduce. rewrite Hno. reduce. rewrite Hres. reduce. tidy.
  reflexivity.
Qed.

Lemma visualize_accepted (st : state) (q sql res reply raw : str) :
  question (vars st) = Some q ->
  sql_query (vars st) = Some sql ->
  result_ (vars st) = Some res ->
  llm_invoke env (out st) llm_groq (visualization_detection_prompt_template q)
  = Returns reply ->
  str_eqb (lower (strip reply)) (py "yes") = true ->
  let generating :=
    out st ++ [LlmInvoke llm_groq (visualization_detection_prompt_template q);
               Print (py "Visualization requested. Generating chart...")] in
  llm_invoke env generating llm_groq (code_prompt sql res) = Returns raw ->
  let code := clean_code raw in
  let generated :=
    generating ++ [LlmInvoke llm_groq (code_prompt sql res);
                   Print (py "cleaned python code:
" ++ py " " ++ code ++ py " " ++ py " end");
                   Print (py "Generated Python code:
" ++ code)] in
  visualize env st =
  match exec_code env generated code with
  | Ok _ =>
      (Ok Normal,
       {| vars := set_generated_code code (vars st);
          out := generated ++ [Exec code;
                               Print (py "Python code executed successfully.")] |})
  | Raise (Exception msg) =>
      (Ok Normal,
       {| vars := set_generated_code code (vars st);
          out := generated ++ [Exec code;
                               Print (py "Error executing generated code: " ++ msg);
                               Print (py "Generated code:
" ++ code)] |})
  | Raise e =>
      (Raise e, {| vars := set_generated_code code (vars st);
                   out := generated ++ [Exec code] |})
  end.
Proof.
  intros Hq Hsql Hres Hllm Hyes generating Hraw code generated.
  subst generating generated code.
  unfold_script. reduce.
  rewrite Hq. reduce. rewrite Hllm. reduce. rewrite Hyes. reduce.
  rewrite Hsql. reduce. rewrite Hres. reduce. tidy.
  tidy in Hraw. rewrite Hraw. reduce. tidy.
  destruct (exec_code env _ (clean_code raw)) as [[]|[msg| | |cls]]; reduce; tidy;
    reflexivity.
Qed.



End Loop.









(** ** The visualization step with generated code in the namespace *)

Section SharedNames.

Variable env : Env.
Variable run : Namespace.runner.

Ltac unfold_namespace :=
  unfold Namespace.visualize, Namespace.execute_generated_code, Namespace.exec,
    andthen, final_answer, check_for_visualization_request,
    ask_llm_to_generate_code, try_except, bind, read, assign, ret, raise,
    print, invoke, emit.




(** With a program that leaves the names alone, the step is the one of
    [Chain.visualize]. *)
Lemma namespace_visualize_untouched (st : state) :
  Namespace.visualize env (Namespace.untouched env) st = visualize env st.
Proof.
  destruct st as [g h].
  unfold Namespace.untouched, visualize, execute_generated_code, exec.
  unfold_namespace. reduce.
  repeat (reduce;
          match goal with
          | |- context [match ?x with _ => _ end] =>
              lazymatch x with
              | context [match _ with _ => _ end] => fail
              | _ => destruct x eqn:?
              end
          end);
  reduce; reflexivity.
Qed.

End SharedNames.



(** * Further properties of the script *)

(** ** Cleaning generated code and extracting SQL *)

Section Trimming.

Lemma lstrip_starts_clean (s : str) : starts_clean (lstrip s).
Proof.
  induction s as [|c s IH]; simpl; [exact I|].
  destruct (isspace c) eqn:E; [exact IH | exact E].
Qed.

Lemma lstrip_fixed (s : str) : starts_clean s -> lstrip s = s.
Proof.
  destruct s as [|c s]; simpl; [reflexivity|]. now intros ->.
Qed.

Lemma rstrip_ends_clean (s : str) : ends_clean (rstrip s).
Proof.
  unfold ends_clean, rstrip. rewrite rev_involutive. apply lstrip_starts_clean.
Qed.

Lemma rstrip_fixed (s : str) : ends_clean s -> rstrip s = s.
Proof.
  unfold ends_clean, rstrip. intro H. rewrite lstrip_fixed by exact H.
  apply rev_involutive.
Qed.

Lemma lstrip_keeps_end (s : str) : ends_clean s -> ends_clean (lstrip s).
Proof.
  unfold ends_clean. intro H.
  destruct (lstrip_suffix s) as [a Ha].
  destruct (lstrip s) as [|c t] eqn:E using rev_ind; [exact I|].
  rewrite rev_app_distr. simpl.
  rewrite Ha, !rev_app_distr in H. simpl in H. exact H.
Qed.

Lemma strip_clean (s : str) : starts_clean (strip s) /\ ends_clean (strip s).
Proof.
  unfold strip. split.
  - apply lstrip_starts_clean.
  - apply lstrip_keeps_end, rstrip_ends_clean.
Qed.

Lemma strip_fixed (s : str) : starts_clean s -> ends_clean s -> strip s = s.
Proof.
  intros Hs He. unfold strip. rewrite rstrip_fixed by exact He.
  now apply lstrip_fixed.
Qed.

(** Nothing to replace: the string is returned as it is. *)
Lemma replace_ne_absent (o : ascii) (old new s : str) :
  contains (o :: old) s = false -> replace_ne o old new s = s.
Proof.
  induction s as [|c s IH]; intro H; [now simp replace_ne|].
  apply contains_false_tail in H as [H1 H2].
  rewrite replace_ne_cons, H1, IH by exact H2. reflexivity.
Qed.

Lemma no_fence_no_python_fence (s : str) :
  contains (py "```") s = false -> contains (py "```python") s = false.
Proof.
  intro H. destruct (contains (py "```python") s) eqn:C; [|reflexivity].
  apply contains_iff in C as [a [b Hab]].
  assert (contains (py "```") s = true) as C'.
  { apply contains_iff. exists a, (py "python" ++ b). rewrite Hab. reflexivity. }
  congruence.
Qed.

(** Bare code, from its "import" on, passes the two replacements and the
    strip unchanged. *)
Lemma unfence_strip_bare (code : str) :
  contains (py "```") code = false ->
  starts_clean code -> ends_clean code ->
  strip (replace (py "```") [] (replace (py "```python") [] code)) = code.
Proof.
  intros Hf Hs He.
  change (replace (py "```python") [] code)
    with (replace_ne "`" (py "``python") [] code).
  rewrite replace_ne_absent by (apply no_fence_no_python_fence; exact Hf).
  change (replace (py "```") [] code) with (replace_ne "`" (py "``") [] code).
  rewrite replace_ne_absent by exact Hf.
  now apply strip_fixed.
Qed.

Lemma find_at_start (sub s : str) :
  startswith sub s = true -> find sub s = 0%Z.
Proof.
  intro H. unfold find. destruct s; simpl; rewrite H; reflexivity.
Qed.

(** What [clean_code] returns never holds a fence and has no blank end. *)
Lemma clean_code_shape (reply : str) :
  contains (py "```") (clean_code reply) = false /\
  starts_clean (clean_code reply) /\ ends_clean (clean_code reply).
Proof.
  unfold clean_code. split; [|apply strip_clean].
  match goal with |- contains _ (strip ?x) = false =>
    destruct (strip_infix x) as [a [b Hab]];
    apply contains_false_infix with (a := a) (b := b);
    rewrite <- Hab
  end.
  apply unfence_clean.
Qed.

Lemma clean_code_bare (code : str) :
  startswith (py "import") code = true ->
  contains (py "```") code = false ->
  ends_clean code ->
  clean_code code = code.
Proof.
  intros Hi Hf He. unfold clean_code.
  rewrite (find_at_start _ _ Hi).
  pose proof (slice_from_offset [] code) as Hz. simpl in Hz. rewrite Hz. clear Hz.
  apply unfence_strip_bare; auto.
  apply startswith_inv in Hi. rewrite Hi. reflexivity.
Qed.

Lemma clean_code_of_import (reply : str) :
  contains (py "import") reply = true ->
  startswith (py "import") (clean_code reply) = true.
Proof.
  intro H. destruct (cut_at_import reply H) as [pre [rest [_ [_ Hcut]]]].
  unfold clean_code. rewrite Hcut.
  destruct (unfence_import rest) as [rest' ->]. apply strip_import.
Qed.

Lemma clean_code_no_import (reply : str) :
  contains (py "import") reply = false ->
  clean_code reply = match rev reply with
                     | [] => []
                     | c :: _ => if isspace c then [] else [c]
                     end.
Proof.
  intro H. unfold clean_code.
  replace (find (py "import") reply) with (-1)%Z
    by (unfold find; apply find_nat_none in H; now rewrite H).
  rewrite slice_from_minus_one.
  destruct (rev reply) as [|c r]; [reflexivity|].
  change (replace (py "```python") [] [c])
    with (replace_ne "`" ("`"%char :: py "`python") [] [c]).
  rewrite (replace_ne_single "`"%char "`"%char).
  change (replace (py "```") [] [c]) with (replace_ne "`" ("`"%char :: py "`") [] [c]).
  rewrite (replace_ne_single "`"%char "`"%char).
  apply strip_single.
Qed.

End Trimming.

Section Pieces.

Lemma same_length_prefix (a a' b b' : str) :
  length a = length a' -> a ++ b = a' ++ b' -> a = a' /\ b = b'.
Proof.
  revert a'. induction a as [|x a IH]; intros [|y a'] Hl H;
    try discriminate; [now split|].
  simpl in *. injection H as -> H. injection Hl as Hl.
  destruct (IH a' Hl H) as [-> ->]. now split.
Qed.

Lemma contains_false_everywhere (m t : str) :
  contains m t = false <-> forall k, startswith m (skipn k t) = false.
Proof.
  induction t as [|c t IH]; simpl.
  - rewrite orb_false_r. split.
    + intros H k. now rewrite skipn_nil.
    + intro H. exact (H 0).
  - rewrite orb_false_iff, IH. split.
    + intros [H0 H] [|k]; [exact H0 | exact (H k)].
    + intro H. split; [exact (H 0) | intro k; exact (H (S k))].
Qed.

(** The last piece of a split holds no separator. *)
Lemma split_ne_last_clean (o : ascii) (sep : str) :
  forall n s, length s <= n -> forall cur,
  (forall k, k < length cur ->
     startswith (o :: sep) (skipn k (rev cur ++ s)) = false) ->
  contains (o :: sep) (last (split_ne o sep s cur) []) = false.
Proof.
  induction n as [|n IH]; intros s Hle cur Hinv.
  - destruct s; [|simpl in Hle; lia]. simp split_ne. simpl last.
    apply contains_false_everywhere. intro k.
    destruct (Nat.lt_ge_cases k (length cur)) as [Hk|Hk].
    + specialize (Hinv k Hk). now rewrite app_nil_r in Hinv.
    + rewrite skipn_all2 by (rewrite length_rev; exact Hk). reflexivity.
  - destruct s as [|c s].
    { simp split_ne. simpl last.
      apply contains_false_everywhere. intro k.
      destruct (Nat.lt_ge_cases k (length cur)) as [Hk|Hk].
      + specialize (Hinv k Hk). now rewrite app_nil_r in Hinv.
      + rewrite skipn_all2 by (rewrite length_rev; exact Hk). reflexivity. }
    simpl in Hle. rewrite split_ne_cons.
    destruct (startswith (o :: sep) (c :: s)) eqn:E.
    + rewrite last_skip_head by apply split_ne_nonempty.
      apply IH; [rewrite length_skipn; lia|].
      intros k Hk. simpl in Hk. lia.
    + apply IH; [lia|].
      intros k Hk. simpl in Hk. simpl rev. rewrite <- app_assoc. simpl app.
      destruct (Nat.eq_dec k (length cur)) as [->|Hne].
      * rewrite skipn_app, length_rev, Nat.sub_diag.
        rewrite skipn_all2 by (rewrite length_rev; lia). exact E.
      * apply Hinv. lia.
Qed.

End Pieces.

(** X1. Cleaning is idempotent: the code [ask_llm_to_generate_code] would
    return for a reply is returned as it is when it is cleaned again. *)
Theorem clean_code_idempotent (reply : str) :
  clean_code (clean_code reply) = clean_code reply.
Proof.
  destruct (contains (py "import") reply) eqn:E.
  - destruct (clean_code_shape reply) as [Hf [_ He]].
    apply clean_code_bare; auto. now apply clean_code_of_import.
  - rewrite (clean_code_no_import reply E).
    destruct (rev reply) as [|c r]; [reflexivity|].
    destruct (isspace c) eqn:Hc; [reflexivity|].
    rewrite clean_code_no_import; [simpl; now rewrite Hc|].
    simpl. now rewrite andb_false_r.
Qed.

(** X2. Whatever the model replies to the code prompt, the code that
    [ask_llm_to_generate_code] returns holds no "```" and no "```python",
    and neither starts nor ends with whitespace. *)
Theorem generated_code_has_no_fence
    (env : Env) (llm : ChatGroq) (sql res : str) (st : state) (reply : str) :
  llm_invoke env (out st) llm (code_prompt sql res) = Returns reply ->
  exists code,
    fst (ask_llm_to_generate_code env llm sql res st) = Ok code /\
    contains (py "```") code = false /\
    contains (py "```python") code = false /\
    starts_clean code /\ ends_clean code.
Proof.
  intro H. exists (clean_code reply).
  rewrite (ask_llm_to_generate_code_returns env llm sql res st reply H).
  destruct (clean_code_shape reply) as [Hf [Hs He]].
  repeat split; auto. now apply no_fence_no_python_fence.
Qed.

Lemma generated_code_has_no_fence_witness :
  exists code,
    fst (ask_llm_to_generate_code Samples.chart_session llm_groq (py "SELECT 1")
           (py "[(1,)]") Samples.start) = Ok code /\
    contains (py "```") code = false /\
    contains (py "```python") code = false /\
    starts_clean code /\ ends_clean code.
Proof.
  apply (generated_code_has_no_fence Samples.chart_session llm_groq (py "SELECT 1")
           (py "[(1,)]") Samples.start (py "Sure: ```python
import pandas as pd
```")).
  reflexivity.
Defined.

(** X3. When the reply is prose followed by bare code (code that starts at
    the first "import" of the reply, holds no "```" and does not end with
    whitespace), [clean_code] returns exactly that code: the prose is
    dropped and nothing else is touched. *)
Theorem bare_code_after_prose_is_kept (pre code : str) :
  startswith (py "import") code = true ->
  (forall a b, pre ++ code = a ++ py "import" ++ b -> length pre <= length a) ->
  contains (py "```") code = false ->
  ends_clean code ->
  clean_code (pre ++ code) = code.
Proof.
  intros Hi Hfirst Hf He.
  pose proof (startswith_inv _ _ Hi) as Hc.
  set (rest := skipn (length (py "import")) code) in Hc.
  assert (contains (py "import") (pre ++ code) = true) as Hin.
  { apply contains_iff. exists pre, rest. now rewrite <- Hc. }
  destruct (cut_at_import _ Hin) as [pre' [rest' [Hr [Hmin Hcut]]]].
  assert (length pre' = length pre) as Hl.
  { apply Nat.le_antisymm.
    - apply (Hmin pre rest). now rewrite <- Hc.
    - apply (Hfirst pre' rest'). exact Hr. }
  destruct (same_length_prefix pre' pre (py "import" ++ rest') code Hl)
    as [_ Hcode]; [now rewrite <- Hr|].
  unfold clean_code. rewrite Hcut, Hcode.
  apply unfence_strip_bare; auto.
  rewrite Hc. reflexivity.
Qed.

Lemma bare_code_after_prose_is_kept_witness :
  clean_code (py "Here is the code:
" ++ py "import os
print(os.getcwd())") = py "import os
print(os.getcwd())".
Proof.
  apply (bare_code_after_prose_is_kept (py "Here is the code:
") (py "import os
print(os.getcwd())")).
  - reflexivity.
  - intros a b H.
    destruct (find_nat_some (py "import")
                (py "Here is the code:
" ++ py "import os
print(os.getcwd())") 18 eq_refl) as [_ [_ [_ [_ Hmin]]]].
    exact (Hmin a b H).
  - reflexivity.
  - reflexivity.
Defined.

(** X4. The SQL that line 188 extracts from a response never holds the
    marker "SQLQuery:" and neither starts nor ends with whitespace;
    extracting from it again gives it back. *)
Theorem extracted_sql_is_clean (response : str) :
  exists sql,
    extract_sql response = Ok sql /\
    contains (py "SQLQuery:") sql = false /\
    starts_clean sql /\ ends_clean sql /\
    extract_sql sql = Ok sql.
Proof.
  eexists. split; [apply extract_sql_ok|].
  set (piece := last (split_ne "S" (py "QLQuery:") response []) []).
  assert (contains (py "SQLQuery:") piece = false) as Hp.
  { apply (split_ne_last_clean "S"%char (py "QLQuery:") (length response));
      [lia|]. intros k Hk. simpl in Hk. lia. }
  assert (contains (py "SQLQuery:") (strip piece) = false) as Hs.
  { destruct (strip_infix piece) as [a [b Hab]].
    apply contains_false_infix with (a := a) (b := b). now rewrite <- Hab. }
  destruct (strip_clean piece) as [H1 H2].
  repeat split; auto.
  rewrite (extract_sql_absent _ Hs). now rewrite strip_fixed.
Qed.

(** ** Turns of the loop *)

Section Turns.

Variable env : Env.

Lemma tally_app (p : event -> bool) (h1 h2 : history) :
  tally p (h1 ++ h2) = tally p h1 + tally p h2.
Proof.
  induction h1 as [|ev h1 IH]; [reflexivity|].
  simpl. rewrite IH. lia.
Qed.

(** What [refine_prompt] adds to the history: prints and at most one call
    to the model, whatever the question. *)
Lemma refine_prompt_events (llm : ChatGroq) (q : str) (h : history) :
  exists r evs,
    (tally is_llm evs <= 1 /\ tally is_chain evs = 0 /\
     tally is_db evs = 0 /\ tally is_exec evs = 0 /\ r <> Raise SystemExit) /\
    forall g,
      refine_prompt env llm q {| vars := g; out := h |}
      = (r, {| vars := g; out := h ++ evs |}).
Proof.
  unfold refine_prompt.
  destruct (existsb (fun k => contains (lower k) (lower q))
              (sensitive_keywords ++ modification_keywords)) eqn:E.
  - apply existsb_exists in E.
    pose proof (fun g => refine_scan_hit env llm q _ {| vars := g; out := h |} E) as H.
    unfold emit in H. cbn [out vars] in H.
    destruct (llm_invoke env _ llm _) as [reply|f].
    + destruct (contains (py "safe to proceed") (lower reply));
        do 2 eexists; (split; [|intro g; rewrite H; repeat rewrite <- app_assoc;
                                 cbn [app]; reflexivity]);
        simpl; repeat split; try lia; discriminate.
    + do 2 eexists; (split; [|intro g; rewrite H; repeat rewrite <- app_assoc;
                               cbn [app]; reflexivity]).
      simpl; repeat split; try lia. destruct f; discriminate.
  - exists (Ok true), []. split; [simpl; repeat split; try lia; discriminate|].
    intro g. rewrite app_nil_r. apply refine_scan_miss.
    intros k Hk. destruct (contains (lower k) (lower q)) eqn:C; [|reflexivity].
    assert (existsb (fun k => contains (lower k) (lower q))
              (sensitive_keywords ++ modification_keywords) = true) as E'.
    { apply existsb_exists. now exists k. }
    congruence.
Qed.

(** The number of calls [refine_prompt] makes to the model is one when a
    keyword occurs in the question and none otherwise. *)
Lemma refine_prompt_call_count (llm : ChatGroq) (q : str) (st : state) :
  llm_calls (out (snd (refine_prompt env llm q st))) =
  llm_calls (out st) +
  (if existsb (fun k => contains (lower k) (lower q))
        (sensitive_keywords ++ modification_keywords) then 1 else 0).
Proof.
  unfold refine_prompt.
  destruct (existsb _ _) eqn:E.
  - apply existsb_exists in E. rewrite refine_scan_hit by exact E.
    unfold emit. cbn [out vars].
    destruct (llm_invoke env _ llm _) as [reply|f];
      [destruct (contains (py "safe to proceed") (lower reply))|];
      cbn [snd out]; rewrite !llm_calls_app; simpl; lia.
  - rewrite refine_scan_miss; [simpl; lia|].
    intros k Hk. destruct (contains (lower k) (lower q)) eqn:C; [|reflexivity].
    assert (existsb (fun k => contains (lower k) (lower q))
              (sensitive_keywords ++ modification_keywords) = true) as E'.
    { apply existsb_exists. now exists k. }
    congruence.
Qed.

End Turns.

Ltac walk env :=
  repeat (reduce;
          first
            [ match goal with
              | |- context [outcome ?x] => destruct x as [?|[?|]] eqn:?
              end
            | match goal with
              | |- context [extract_sql ?x] => rewrite (extract_sql_ok x)
              end
            | match goal with
              | |- context [refine_prompt env ?l ?q {| vars := _; out := ?h |}] =>
                  let r := fresh "r" in
                  let evs := fresh "evs" in
                  let Hn := fresh "Hn" in
                  let Hr := fresh "Hr" in
                  destruct (refine_prompt_events env l q h) as [r [evs [Hn Hr]]];
                  rewrite !Hr
              end
            | match goal with
              | |- context [match ?x with _ => _ end] =>
                  lazymatch x with
                  | context [match _ with _ => _ end] => fail
                  | _ => destruct x eqn:?
                  end
              end ]);
  reduce.

Lemma follows_skip (p q : event -> bool) (seen : bool) (quiet rest : history) :
  tally p quiet = 0 -> tally q quiet = 0 ->
  follows p q seen (quiet ++ rest) = follows p q seen rest.
Proof.
  revert seen. induction quiet as [|ev quiet IH]; intros seen Hp Hq; [reflexivity|].
  simpl in *. destruct (p ev); [lia|]. destruct (q ev); [lia|].
  simpl. rewrite orb_false_r. now apply IH.
Qed.

Lemma follows_quiet (p q : event -> bool) (seen : bool) (quiet : history) :
  tally p quiet = 0 -> tally q quiet = 0 -> follows p q seen quiet = true.
Proof.
  intros Hp Hq. rewrite <- (app_nil_r quiet). now rewrite follows_skip.
Qed.

Lemma follows_sound (p q : event -> bool) (h : history) :
  forall seen, follows p q seen h = true ->
  forall a ev b, h = a ++ ev :: b -> q ev = true ->
  seen = true \/ 1 <= tally p a.
Proof.
  induction h as [|ev0 h IH]; intros seen H a ev b Hs Hq.
  - destruct a; discriminate.
  - simpl in H. apply andb_true_iff in H as [H0 H1].
    destruct a as [|x a]; simpl in Hs; injection Hs as -> Hs.
    + rewrite Hq in H0. simpl in H0. now left.
    + destruct (IH _ H1 a ev b Hs Hq) as [Hseen|Hcount].
      * apply orb_true_iff in Hseen as [Hseen|Hp]; [now left|].
        right. simpl. rewrite Hp. lia.
      * right. simpl. lia.
Qed.

(** X5. In one iteration the script calls the model at most four times and
    the SQL chain at most once; it queries the database at most once, and
    only after the chain was called; it executes generated code at most
    once, and only after the database was queried. *)
Theorem one_query_per_turn (env : Env) (st : state) :
  exists evs,
    out (snd (iteration env st)) = out st ++ evs /\
    tally is_llm evs <= 4 /\
    tally is_chain evs <= 1 /\
    tally is_db evs <= tally is_chain evs /\
    tally is_exec evs <= tally is_db evs /\
    (forall before ev later,
       evs = before ++ ev :: later -> is_db ev = true ->
       1 <= tally is_chain before) /\
    (forall before ev later,
       evs = before ++ ev :: later -> is_exec ev = true ->
       1 <= tally is_db before).
Proof.
  destruct st as [g h]. unfold_script.
  walk env; tidy; (eexists; split; [reflexivity|]);
  repeat match goal with H : _ /\ _ |- _ => destruct H end;
  (split; [repeat (cbn [tally is_llm is_chain is_db is_exec Nat.add]
                   || rewrite tally_app); lia|]);
  (split; [repeat (cbn [tally is_llm is_chain is_db is_exec Nat.add]
                   || rewrite tally_app); lia|]);
  (split; [repeat (cbn [tally is_llm is_chain is_db is_exec Nat.add]
                   || rewrite tally_app); lia|]);
  (split; [repeat (cbn [tally is_llm is_chain is_db is_exec Nat.add]
                   || rewrite tally_app); lia|]);
  split; intros before ev later Hs Hq;
  match type of Hs with
  | ?l = _ =>
      match goal with
      | |- 1 <= tally ?p _ =>
          match type of Hq with
          | ?q _ = true =>
              let Hf := fresh "Hf" in
              assert (follows p q false l = true) as Hf
                by (repeat (cbn [follows is_chain is_db is_exec negb orb andb]
                            || (rewrite follows_skip by assumption)
                            || (rewrite follows_quiet by assumption));
                    reflexivity);
              destruct (follows_sound p q l false Hf before ev later Hs Hq)
                as [Hseen|Hcount];
              [discriminate Hseen | exact Hcount]
          end
      end
  end.
Qed.

(** X6. The loop is left through [break] only by the exit command: an
    iteration breaks only when the line read at the question prompt,
    lower-cased and not stripped, is "exit". *)
Theorem only_exit_breaks (env : Env) (st : state) :
  fst (iteration env st) = Ok Break ->
  exists q,
    console_input env (out st) (py "Enter your question (or type 'exit' to quit): ")
      = Returns q /\
    lower q = py "exit".
Proof.
  destruct st as [g h]. unfold_script.
  walk env; intro H; try discriminate H.
  eexists. split; [reflexivity|]. now apply str_eqb_eq.
Qed.

Lemma only_exit_breaks_witness :
  exists q,
    console_input
      (Samples.scripted (py "Exit") [] (Returns []) (Returns []) (Returns [])
         (Returns []) (Returns []) (Returns []) (Ok tt))
      (out Samples.start) (py "Enter your question (or type 'exit' to quit): ")
      = Returns q /\
    lower q = py "exit".
Proof.
  apply (only_exit_breaks
           (Samples.scripted (py "Exit") [] (Returns []) (Returns []) (Returns [])
              (Returns []) (Returns []) (Returns []) (Ok tt))
           Samples.start).
  reflexivity.
Defined.

(** X8. Typing "exit", in any letter case, ends the loop at once: the
    script prints "Exiting program." and leaves, without calling the model,
    the chain or the database. *)
Theorem exit_ends_the_loop (env : Env) (st : state) (q : str) (fuel : nat) :
  console_input env (out st) (py "Enter your question (or type 'exit' to quit): ")
    = Returns q ->
  lower q = py "exit" ->
  main_loop env (S fuel) st =
  (Exited,
   {| vars := set_question q (vars st);
      out := out st ++ [Input (py "Enter your question (or type 'exit' to quit): ");
                        Print (py "Exiting program.")] |}).
Proof.
  intros Hin Hexit. apply str_eqb_eq in Hexit.
  cbn [main_loop]. unfold_script. reduce. rewrite Hin. reduce.
  rewrite Hexit. reduce. tidy. reflexivity.
Qed.

Lemma exit_ends_the_loop_witness :
  main_loop
    (Samples.scripted (py "eXiT") [] (Returns []) (Returns []) (Returns [])
       (Returns []) (Returns []) (Returns []) (Ok tt)) 7 Samples.start =
  (Exited,
   {| vars := set_question (py "eXiT") unbound;
      out := [Input (py "Enter your question (or type 'exit' to quit): ");
              Print (py "Exiting program.")] |}).
Proof.
  apply (exit_ends_the_loop
           (Samples.scripted (py "eXiT") [] (Returns []) (Returns []) (Returns [])
              (Returns []) (Returns []) (Returns []) (Ok tt))
           Samples.start (py "eXiT") 6); reflexivity.
Defined.

(** X9. A question the model does not declare safe is dropped: when a
    keyword occurs in the question and the reply of the model does not
    contain "safe to proceed", the reply is printed verbatim after
    "LLM response: " and the iteration ends with [continue]; no SQL is
    generated and the database is not queried. *)
Theorem refused_question_is_dropped
    (env : Env) (st : state) (q reply : str) :
  console_input env (out st) (py "Enter your question (or type 'exit' to quit): ")
    = Returns q ->
  lower q <> py "exit" ->
  (exists keyword, In keyword (sensitive_keywords ++ modification_keywords) /\
     contains (lower keyword) (lower q) = true) ->
  llm_invoke env
    (out st ++ [Input (py "Enter your question (or type 'exit' to quit): ");
                Print (py "Potential sensitive or modifying operation detected in the question. Refining the query...")])
    llm_groq (sensitive_info_prompt_template q) = Returns reply ->
  contains (py "safe to proceed") (lower reply) = false ->
  iteration env st =
  (Ok Continue,
   {| vars := set_question q (vars st);
      out := out st ++
        [Input (py "Enter your question (or type 'exit' to quit): ");
         Print (py "Potential sensitive or modifying operation detected in the question. Refining the query...");
         LlmInvoke llm_groq (sensitive_info_prompt_template q);
         Print (py "LLM response: " ++ reply)] |}).
Proof.
  intros Hin Hexit Hk Hllm Hno.
  assert (str_eqb (lower q) (py "exit") = false) as Hb.
  { destruct (str_eqb _ _) eqn:E; [apply str_eqb_eq in E; contradiction|reflexivity]. }
  unfold iteration, loop_body, bind, input, assign, read, refine_prompt.
  reduce. rewrite Hin. reduce. rewrite Hb. reduce.
  rewrite refine_scan_hit by exact Hk. cbv zeta. unfold emit. reduce.
  tidy. rewrite Hllm, Hno. reduce. unfold ret. tidy. reflexivity.
Qed.

Lemma refused_question_is_dropped_witness :
  iteration
    (Samples.scripted (py "please drop the users table") []
       (Returns (py "Warning: this would delete data.")) (Returns []) (Returns [])
       (Returns []) (Returns []) (Returns []) (Ok tt)) Samples.start =
  (Ok Continue,
   {| vars := set_question (py "please drop the users table") unbound;
      out := [Input (py "Enter your question (or type 'exit' to quit): ");
              Print (py "Potential sensitive or modifying operation detected in the question. Refining the query...");
              LlmInvoke llm_groq (sensitive_info_prompt_template (py "please drop the users table"));
              Print (py "LLM response: " ++ py "Warning: this would delete data.")] |}).
Proof.
  apply (refused_question_is_dropped
           (Samples.scripted (py "please drop the users table") []
              (Returns (py "Warning: this would delete data.")) (Returns [])
              (Returns []) (Returns []) (Returns []) (Returns []) (Ok tt))
           Samples.start (py "please drop the users table")
           (py "Warning: this would delete data.")).
  - reflexivity.
  - discriminate.
  - exists (py "drop"). split; [simpl; tauto | reflexivity].
  - reflexivity.
  - reflexivity.
Defined.

(** X10. [refine_prompt] has no handler of its own: when its call to the
    model fails, the failure reaches the handlers of the loop, which print
    their notice; the iteration ends there, no SQL is generated, and the
    loop goes on. *)
Theorem safety_check_failure_reaches_the_loop
    (env : Env) (st : state) (q : str) (f : failure) (fuel : nat) :
  console_input env (out st) (py "Enter your question (or type 'exit' to quit): ")
    = Returns q ->
  lower q <> py "exit" ->
  (exists keyword, In keyword (sensitive_keywords ++ modification_keywords) /\
     contains (lower keyword) (lower q) = true) ->
  llm_invoke env
    (out st ++ [Input (py "Enter your question (or type 'exit' to quit): ");
                Print (py "Potential sensitive or modifying operation detected in the question. Refining the query...")])
    llm_groq (sensitive_info_prompt_template q) = Fails f ->
  let st' :=
    {| vars := set_question q (vars st);
       out := out st ++
         [Input (py "Enter your question (or type 'exit' to quit): ");
          Print (py "Potential sensitive or modifying operation detected in the question. Refining the query...");
          LlmInvoke llm_groq (sensitive_info_prompt_template q);
          Print (loop_notice f)] |} in
  iteration env st = (Ok Normal, st') /\
  main_loop env (S fuel) st = main_loop env fuel st'.
Proof.
  intros Hin Hexit Hk Hllm st'.
  assert (str_eqb (lower q) (py "exit") = false) as Hb.
  { destruct (str_eqb _ _) eqn:E; [apply str_eqb_eq in E; contradiction|reflexivity]. }
  assert (iteration env st = (Ok Normal, st')) as Hrun.
  { unfold iteration, loop_body, bind, input, assign, read, refine_prompt.
    reduce. rewrite Hin. reduce. rewrite Hb. reduce.
    rewrite refine_scan_hit by exact Hk. cbv zeta. unfold emit. reduce.
    tidy. rewrite Hllm. subst st'.
    destruct f; reduce; unfold print, ret, bind, emit; reduce; tidy; reflexivity. }
  split; [exact Hrun|]. cbn [main_loop]. now rewrite Hrun.
Qed.

Lemma safety_check_failure_reaches_the_loop_witness :
  fst (iteration
         (Samples.scripted (py "show me the tokens") []
            (Fails (Error (py "rate limit"))) (Returns []) (Returns [])
            (Returns []) (Returns []) (Returns []) (Ok tt)) Samples.start)
  = Ok Normal.
Proof.
  destruct (safety_check_failure_reaches_the_loop
              (Samples.scripted (py "show me the tokens") []
                 (Fails (Error (py "rate limit"))) (Returns []) (Returns [])
                 (Returns []) (Returns []) (Returns []) (Ok tt))
              Samples.start (py "show me the tokens") (Error (py "rate limit")) 0)
    as [Hrun _].
  - reflexivity.
  - discriminate.
  - exists (py "token"). split; [simpl; tauto | reflexivity].
  - reflexivity.
  - now rewrite Hrun.
Defined.

(** X11. When the SQL chain fails, the database is not queried: the
    iteration prints one line, the warning about generating the SQL query
    with the message of the error, or the notice of the loop when the call
    was interrupted, and the loop takes its next turn. *)
Theorem translation_failure_skips_turn
    (env : Env) (st st2 : state) (q : str) (f : failure) (fuel : nat) :
  console_input env (out st) (py "Enter your question (or type 'exit' to quit): ")
    = Returns q ->
  lower q <> py "exit" ->
  refine_prompt env llm_groq q
    {| vars := set_question q (vars st);
       out := out st ++ [Input (py "Enter your question (or type 'exit' to quit): ")] |}
    = (Ok true, st2) ->
  chain_invoke env (out st2) q = Fails f ->
  let line :=
    match f with
    | Error msg => py "Warning: An error occurred while generating the SQL query: " ++ msg
    | Interrupt => loop_notice Interrupt
    end in
  exists c st',
    iteration env st = (Ok c, st') /\
    c <> Break /\
    out st' = out st2 ++ [ChainInvoke q; Print line] /\
    tally is_db (out st') = tally is_db (out st) /\
    main_loop env (S fuel) st = main_loop env fuel st'.
Proof.
  intros Hin Hexit Hrefine Hchain line.
  assert (str_eqb (lower q) (py "exit") = false) as Hb.
  { destruct (str_eqb _ _) eqn:E; [apply str_eqb_eq in E; contradiction|reflexivity]. }
  destruct (refine_prompt_events env llm_groq q
              (out st ++ [Input (py "Enter your question (or type 'exit' to quit): ")]))
    as [r [evs [[_ [_ [Hdb _]]] Hr]]].
  rewrite Hr in Hrefine.
  assert (r = Ok true) as -> by congruence.
  assert (st2 = {| vars := set_question q (vars st);
                   out := (out st ++ [Input (py "Enter your question (or type 'exit' to quit): ")])
                          ++ evs |}) as -> by congruence.
  clear Hrefine. cbn [out vars] in Hchain.
  assert (exists c,
          c <> Break /\
          iteration env st =
          (Ok c,
           {| vars := set_question q (vars st);
              out := (out st ++ [Input (py "Enter your question (or type 'exit' to quit): ")])
                     ++ evs ++ [ChainInvoke q; Print line] |}))
    as [c [Hc Hrun]].
  { destruct f as [msg|]; [exists Continue | exists Normal];
      (split; [discriminate|]);
      unfold_script; reduce; rewrite Hin; reduce; rewrite Hb; reduce;
      rewrite Hr; reduce; rewrite Hchain; reduce; tidy; reflexivity. }
  exists c. eexists. split; [exact Hrun|]. cbn [out vars].
  split; [exact Hc|].
  split; [tidy; reflexivity|].
  split.
  - rewrite !tally_app. rewrite Hdb. simpl. lia.
  - cbn [main_loop]. rewrite Hrun. now destruct c.
Qed.

Lemma translation_failure_skips_turn_witness :
  exists c st',
    iteration
      (Samples.scripted (py "top cuisines?") [] (Returns []) (Returns [])
         (Returns []) (Returns []) (Fails (Error (py "timeout"))) (Returns [])
         (Ok tt)) Samples.start = (Ok c, st') /\
    c <> Break /\
    tally is_db (out st') = 0.
Proof.
  destruct (translation_failure_skips_turn
              (Samples.scripted (py "top cuisines?") [] (Returns []) (Returns [])
                 (Returns []) (Returns []) (Fails (Error (py "timeout"))) (Returns [])
                 (Ok tt))
              Samples.start
              {| vars := set_question (py "top cuisines?") unbound;
                 out := [Input (py "Enter your question (or type 'exit' to quit): ")] |}
              (py "top cuisines?") (Error (py "timeout")) 0)
    as [c [st' [Hrun [Hc [_ [Hdb _]]]]]].
  - reflexivity.
  - discriminate.
  - reflexivity.
  - reflexivity.
  - exists c, st'. repeat split; auto.
Defined.

(** X12. A failure of the model-choice prompt (a closed standard input, a
    Ctrl-C) comes after the SQL was executed and is not handled where it
    occurs: the handlers of the loop print their notice and the iteration
    ends there, without a chart and without an answer. *)
Theorem choice_failure_abandons_turn
    (env : Env) (st st2 : state) (q resp sql rows : str) (f : failure) :
  console_input env (out st) (py "Enter your question (or type 'exit' to quit): ")
    = Returns q ->
  lower q <> py "exit" ->
  refine_prompt env llm_groq q
    {| vars := set_question q (vars st);
       out := out st ++ [Input (py "Enter your question (or type 'exit' to quit): ")] |}
    = (Ok true, st2) ->
  chain_invoke env (out st2) q = Returns resp ->
  extract_sql resp = Ok sql ->
  db_run env (out st2 ++ [ChainInvoke q]) sql = Returns rows ->
  console_input env (out st2 ++ [ChainInvoke q; DbRun sql]) (py "Choose LLM (groq/llama2): ")
    = Fails f ->
  exists st',
    iteration env st = (Ok Normal, st') /\
    out st' = out st2 ++ [ChainInvoke q; DbRun sql;
                          Input (py "Choose LLM (groq/llama2): ");
                          Print (loop_notice f)].
Proof.
  intros Hin Hexit Hrefine Hchain Hsql Hdb Hchoice.
  assert (str_eqb (lower q) (py "exit") = false) as Hb.
  { destruct (str_eqb _ _) eqn:E; [apply str_eqb_eq in E; contradiction|reflexivity]. }
  destruct (refine_prompt_events env llm_groq q
              (out st ++ [Input (py "Enter your question (or type 'exit' to quit): ")]))
    as [r [evs [_ Hr]]].
  rewrite Hr in Hrefine.
  assert (r = Ok true) as -> by congruence.
  assert (st2 = {| vars := set_question q (vars st);
                   out := (out st ++ [Input (py "Enter your question (or type 'exit' to quit): ")])
                          ++ evs |}) as -> by congruence.
  clear Hrefine. cbn [out vars] in Hchain, Hdb, Hchoice.
  tidy in Hchoice.
  exists {| vars := set_result rows
                      (set_sql_query sql (set_response resp (set_question q (vars st))));
            out := ((out st ++ [Input (py "Enter your question (or type 'exit' to quit): ")])
                    ++ evs) ++
                   [ChainInvoke q; DbRun sql;
                    Input (py "Choose LLM (groq/llama2): ");
                    Print (loop_notice f)] |}.
  split; [|reflexivity].
  unfold_script. reduce. rewrite Hin. reduce. rewrite Hb. reduce.
  rewrite Hr. reduce. rewrite Hchain. reduce. rewrite Hsql. reduce.
  rewrite Hdb. reduce. tidy. rewrite Hchoice.
  destruct f; reduce; unfold loop_notice;
    repeat (rewrite <- app_assoc || (progress (cbn [app]))); reflexivity.
Qed.

Lemma choice_failure_abandons_turn_witness :
  exists st',
    iteration
      {| console_input := fun _ prompt =>
           if startswith (py "Choose LLM") prompt then Fails (Error (py "EOF when reading a line"))
           else Returns (py "top cuisines?");
         llm_invoke := fun _ _ _ => Returns [];
         chain_invoke := fun _ _ => Returns (py "SELECT 1");
         db_run := fun _ _ => Returns (py "[(1,)]");
         exec_code := fun _ _ => Ok tt |} Samples.start = (Ok Normal, st') /\
    tally is_db (out st') = 1 /\ tally is_llm (out st') = 0.
Proof.
  destruct (choice_failure_abandons_turn
              {| console_input := fun _ prompt =>
                   if startswith (py "Choose LLM") prompt
                   then Fails (Error (py "EOF when reading a line"))
                   else Returns (py "top cuisines?");
                 llm_invoke := fun _ _ _ => Returns [];
                 chain_invoke := fun _ _ => Returns (py "SELECT 1");
                 db_run := fun _ _ => Returns (py "[(1,)]");
                 exec_code := fun _ _ => Ok tt |}
              Samples.start
              {| vars := set_question (py "top cuisines?") unbound;
                 out := [Input (py "Enter your question (or type 'exit' to quit): ")] |}
              (py "top cuisines?") (py "SELECT 1") (py "SELECT 1") (py "[(1,)]")
              (Error (py "EOF when reading a line")))
    as [st' [Hrun Hout]]; try reflexivity; try discriminate.
  exists st'. split; [exact Hrun|]. rewrite Hout. split; reflexivity.
Defined.

(** X13. A failure of the model inside the visualization step, at the
    decision or at the generation of the code, ends the iteration with the
    visualization warning: unlike a failure of the generated code itself,
    it is not followed by the final answer. *)
Theorem visualization_failure_skips_answer
    (env : Env) (st : state) (q sql res : str) (msg : str) :
  question (vars st) = Some q ->
  sql_query (vars st) = Some sql ->
  result_ (vars st) = Some res ->
  let decided := out st ++ [LlmInvoke llm_groq (visualization_detection_prompt_template q)] in
  let warning := Print (py "Warning: An error occurred during visualization: " ++ msg) in
  (llm_invoke env (out st) llm_groq (visualization_detection_prompt_template q)
     = Fails (Error msg) ->
   andthen (visualize env) (final_answer env) st
   = (Ok Continue, {| vars := vars st; out := decided ++ [warning] |})) /\
  (forall reply,
     llm_invoke env (out st) llm_groq (visualization_detection_prompt_template q)
       = Returns reply ->
     lower (strip reply) = py "yes" ->
     llm_invoke env (decided ++ [Print (py "Visualization requested. Generating chart...")])
       llm_groq (code_prompt sql res) = Fails (Error msg) ->
     andthen (visualize env) (final_answer env) st
     = (Ok Continue,
        {| vars := vars st;
           out := decided ++ [Print (py "Visualization requested. Generating chart...");
                              LlmInvoke llm_groq (code_prompt sql res);
                              warning] |})).
Proof.
  intros Hq Hsql Hres decided warning. subst decided warning. split.
  - intro Hvis. unfold_script. reduce. rewrite Hq. reduce. rewrite Hvis. reduce.
    tidy. reflexivity.
  - intros reply Hvis Hyes Hgen. apply str_eqb_eq in Hyes. tidy in Hgen.
    unfold_script. reduce. rewrite Hq. reduce. rewrite Hvis. reduce.
    rewrite Hyes. reduce. rewrite Hsql. reduce. rewrite Hres. reduce.
    tidy. rewrite Hgen. reduce. tidy. reflexivity.
Qed.

Lemma visualization_failure_skips_answer_witness :
  ran_answer
    (out (snd (andthen
                 (visualize (Samples.scripted [] [] (Returns []) (Returns (py "yes"))
                               (Fails (Error (py "quota"))) (Returns []) (Returns [])
                               (Returns []) (Ok tt)))
                 (final_answer (Samples.scripted [] [] (Returns []) (Returns (py "yes"))
                                  (Fails (Error (py "quota"))) (Returns []) (Returns [])
                                  (Returns []) (Ok tt)))
                 {| vars := set_llm llm_groq
                              (set_result (py "[(1,)]")
                                 (set_sql_query (py "SELECT 1")
                                    (set_question (py "plot it") unbound)));
                    out := [] |}))) = false.
Proof.
  destruct (visualization_failure_skips_answer
              (Samples.scripted [] [] (Returns []) (Returns (py "yes"))
                 (Fails (Error (py "quota"))) (Returns []) (Returns [])
                 (Returns []) (Ok tt))
              {| vars := set_llm llm_groq
                           (set_result (py "[(1,)]")
                              (set_sql_query (py "SELECT 1")
                                 (set_question (py "plot it") unbound)));
                 out := [] |}
              (py "plot it") (py "SELECT 1") (py "[(1,)]") (py "quota")
              eq_refl eq_refl eq_refl) as [_ Hgen].
  rewrite (Hgen (py "yes") eq_refl eq_refl eq_refl). reflexivity.
Defined.

(** X14. A plain question is answered in one pass: when no keyword occurs
    in the question, the chain and the database return, the user picks a
    model and the Visualization Decider does not say yes, the iteration
    calls, in this order, the chain, the database, the choice prompt, the
    decider and the model for the answer; it prints the raw SQL result and
    then the answer, executes no code and falls through to the next
    turn. *)
Theorem plain_question_is_answered
    (env : Env) (st : state) (q resp sql rows line reply answer : str) :
  console_input env (out st) (py "Enter your question (or type 'exit' to quit): ")
    = Returns q ->
  lower q <> py "exit" ->
  (forall keyword, In keyword (sensitive_keywords ++ modification_keywords) ->
     contains (lower keyword) (lower q) = false) ->
  let asked := out st ++ [Input (py "Enter your question (or type 'exit' to quit): ")] in
  chain_invoke env asked q = Returns resp ->
  extract_sql resp = Ok sql ->
  db_run env (asked ++ [ChainInvoke q]) sql = Returns rows ->
  console_input env (asked ++ [ChainInvoke q; DbRun sql]) (py "Choose LLM (groq/llama2): ")
    = Returns line ->
  let chosen :=
    asked ++ [ChainInvoke q; DbRun sql; Input (py "Choose LLM (groq/llama2): ")]
    ++ (if str_eqb (lower (strip line)) (py "groq") then []
        else [Print (py "Invalid LLM choice. Using default 'groq'.")]) in
  llm_invoke env chosen llm_groq (visualization_detection_prompt_template q)
    = Returns reply ->
  lower (strip reply) <> py "yes" ->
  llm_invoke env
    (chosen ++ [LlmInvoke llm_groq (visualization_detection_prompt_template q);
                Print (py "Answer: The SQL result is " ++ rows)])
    llm_groq (answer_prompt q sql rows) = Returns answer ->
  exists st',
    iteration env st = (Ok Normal, st') /\
    out st' = chosen ++
      [LlmInvoke llm_groq (visualization_detection_prompt_template q);
       Print (py "Answer: The SQL result is " ++ rows);
       LlmInvoke llm_groq (answer_prompt q sql rows);
       Print answer] /\
    question (vars st') = Some q /\
    sql_query (vars st') = Some sql /\
    result_ (vars st') = Some rows /\
    final_response (vars st') = Some answer.
Proof.
  intros Hin Hexit Hmiss asked Hchain Hsql Hdb Hchoice chosen Hvis Hno Hans.
  subst chosen asked.
  assert (str_eqb (lower q) (py "exit") = false) as Hb.
  { destruct (str_eqb (lower q) (py "exit")) eqn:E;
      [apply str_eqb_eq in E; contradiction|reflexivity]. }
  assert (str_eqb (lower (strip reply)) (py "yes") = false) as Hv.
  { destruct (str_eqb (lower (strip reply)) (py "yes")) eqn:E;
      [apply str_eqb_eq in E; contradiction|reflexivity]. }
  tidy in Hdb. tidy in Hchoice.
  revert Hvis Hans.
  destruct (str_eqb (lower (strip line)) (py "groq")) eqn:Eg; intros Hvis Hans;
    tidy in Hvis; tidy in Hans;
    (eexists; split;
     [ unfold_script; unfold refine_prompt; reduce; rewrite Hin; reduce;
       rewrite Hb; reduce; rewrite refine_scan_miss by exact Hmiss; reduce;
       rewrite Hchain; reduce; rewrite Hsql; reduce; tidy; rewrite Hdb; reduce;
       tidy; rewrite Hchoice; reduce; rewrite Eg; reduce; tidy;
       rewrite Hvis; reduce; rewrite Hv; reduce; tidy; rewrite Hans; reduce;
       reflexivity
     | cbn [out vars question sql_query result_ final_response
            set_final_response set_filled_prompt set_llm set_llm_choice
            set_result set_sql_query set_response set_question];
       repeat (rewrite <- app_assoc || (progress (cbn [app])));
       repeat split; reflexivity ]).
Qed.

Lemma plain_question_is_answered_witness :
  exists st',
    iteration
      (Samples.scripted (py "What are the top cuisines?") (py "groq")
         (Returns []) (Returns (py "no")) (Returns []) (Returns (py "Italian."))
         (Returns (py "SQLQuery: SELECT 1")) (Returns (py "[(1,)]")) (Ok tt))
      Samples.start = (Ok Normal, st') /\
    final_response (vars st') = Some (py "Italian.") /\
    tally is_exec (out st') = 0.
Proof.
  destruct (plain_question_is_answered
              (Samples.scripted (py "What are the top cuisines?") (py "groq")
                 (Returns []) (Returns (py "no")) (Returns []) (Returns (py "Italian."))
                 (Returns (py "SQLQuery: SELECT 1")) (Returns (py "[(1,)]")) (Ok tt))
              Samples.start (py "What are the top cuisines?")
              (py "SQLQuery: SELECT 1") (py "SELECT 1") (py "[(1,)]") (py "groq")
              (py "no") (py "Italian."))
    as [st' [Hrun [Hout [_ [_ [_ Hfinal]]]]]].
  - vm_compute. reflexivity.
  - intro H. vm_compute in H. discriminate H.
  - intros keyword Hk. simpl in Hk.
    repeat (destruct Hk as [<-|Hk]; [vm_compute; reflexivity|]). destruct Hk.
  - vm_compute. reflexivity.
  - vm_compute. reflexivity.
  - vm_compute. reflexivity.
  - vm_compute. reflexivity.
  - vm_compute. reflexivity.
  - intro H. vm_compute in H. discriminate H.
  - vm_compute. reflexivity.
  - exists st'. split; [exact Hrun|]. split; [exact Hfinal|].
    rewrite Hout. vm_compute. reflexivity.
Defined.

(** X15. A console that always fails never ends the program: with a closed
    standard input, or a user who answers every prompt with Ctrl-C, every
    turn of the loop prints the prompt and the notice of the loop's handler
    and the loop goes on, without ever calling a model or the database. *)
Theorem dead_console_spins (env : Env) (f : failure) :
  (forall h prompt, console_input env h prompt = Fails f) ->
  forall fuel st,
    main_loop env fuel st =
    (Looping,
     {| vars := vars st;
        out := out st ++
          concat (repeat [Input (py "Enter your question (or type 'exit' to quit): ");
                          Print (loop_notice f)] fuel) |}).
Proof.
  intros Hdead fuel. induction fuel as [|fuel IH]; intros [g h].
  - simpl. now rewrite app_nil_r.
  - cbn [main_loop].
    assert (iteration env {| vars := g; out := h |} =
            (Ok Normal,
             {| vars := g;
                out := h ++ [Input (py "Enter your question (or type 'exit' to quit): ");
                             Print (loop_notice f)] |})) as Hrun.
    { unfold_script. reduce. rewrite Hdead.
      destruct f; reduce; unfold loop_notice;
        repeat (rewrite <- app_assoc || (progress (cbn [app]))); reflexivity. }
    rewrite Hrun, IH. cbn [vars out repeat concat].
    now rewrite <- !app_assoc.
Qed.

Lemma dead_console_spins_witness :
  fst (main_loop (dead_console (Error (py "EOF when reading a line"))) 25 Samples.start)
  = Looping.
Proof.
  rewrite (dead_console_spins (dead_console (Error (py "EOF when reading a line")))
             (Error (py "EOF when reading a line")) (fun _ _ => eq_refl) 25
             Samples.start).
  reflexivity.
Defined.

(** X16. The keyword check of [refine_prompt] is by substring and ignores
    letter case: if a question makes it call the model, so does every
    question that contains it, in any letter case, with anything before and
    after, whatever the model and the history. *)
Theorem keyword_check_is_by_substring
    (env env' : Env) (llm llm' : ChatGroq) (q q' a b : str) (st st' : state) :
  lower q' = lower q ->
  llm_calls (out (snd (refine_prompt env llm q st))) = S (llm_calls (out st)) ->
  llm_calls (out (snd (refine_prompt env' llm' (a ++ q' ++ b) st')))
    = S (llm_calls (out st')).
Proof.
  intros Hcase Hcalls. rewrite refine_prompt_call_count in *.
  destruct (existsb (fun k => contains (lower k) (lower q))
              (sensitive_keywords ++ modification_keywords)) eqn:E; [|lia].
  apply existsb_exists in E as [k [Hin Hk]].
  apply contains_iff in Hk as [x [y Hxy]].
  replace (existsb (fun k => contains (lower k) (lower (a ++ q' ++ b)))
             (sensitive_keywords ++ modification_keywords)) with true; [lia|].
  symmetry. apply existsb_exists. exists k. split; [exact Hin|].
  apply contains_iff. exists (lower a ++ x), (y ++ lower b).
  unfold lower in *. rewrite !map_app. fold (lower q'). unfold lower.
  rewrite Hcase, Hxy. now rewrite <- !app_assoc.
Qed.

Lemma keyword_check_is_by_substring_witness :
  llm_calls (out (snd (refine_prompt Samples.chart_session llm_groq
                         (py "When were the MENU UPDATES published?") Samples.start)))
  = 1.
Proof.
  apply (keyword_check_is_by_substring Samples.failing_db_session Samples.chart_session
           llm_groq llm_groq (py "update") (py "UPDATE")
           (py "When were the MENU ") (py "S published?")
           Samples.start Samples.start); reflexivity.
Defined.
